(** * Stock price viewer: fetch / transform / render pipeline

    A shallow embedding of [stock_viewer.py]: the request model
    ([parse_date], the validation in [_fetch_and_plot_async], the quick-range
    helper), the series transformer (the rolling means computed in
    [_fetch_and_plot]) and the fetch controller with its two render
    callbacks ([_on_fetch_error], [_draw_plot]), the export [_save_png] and
    the start-up in [__init__]; and of the loop of [stock_heatmap1.py] that
    reads the tickers.

    Conventions.
    - Python [str] is a Rocq [string]; a character is read as the code point
      of the same number (Latin-1).  Digits and blanks of other scripts, which
      [int] and [str.strip] also know, are outside this type.  The few
      literals of the program with other characters (the ellipsis of the
      loading message, the bullets and the arrow of the title) stand as
      their UTF-8 bytes; they are only ever written, never parsed.  So do
      the two upper-case letters that [str.upper] takes out of Latin-1.
    - Python [int] is [Z].
    - A raised exception is the [Raise] case of [result]; the exception
      carries its class and its message, as [str(e)] shows it.
    - Prices are exact rationals; [None] stands for NaN.  Rounding of binary
      floating point is not part of the model. *)

From Stdlib Require Import ZArith QArith Lia List Bool Ascii String.
From Stdlib Require Import DecimalString.
From Stdlib Require Orders Mergesort.
From Stdlib Require Import Permutation Sorted.
Import ListNotations.
Local Open Scope string_scope.
Local Open Scope Z_scope.

(** ** Exceptions and fallible results *)

Inductive exn_class : Type :=
| ValueError | RuntimeError | OverflowError | IndexError | TypeError
| KeyError | NameError | ProviderFailure.

Record exn : Type := Exn { exn_cls : exn_class; exn_msg : string }.

Inductive result (A : Type) : Type :=
| Ok (a : A)
| Raise (e : exn).
Arguments Ok {A} a.
Arguments Raise {A} e.

Definition bind {A B} (r : result A) (k : A -> result B) : result B :=
  match r with
  | Ok a => k a
  | Raise e => Raise e
  end.

Declare Scope py_scope.
Notation "x <- r ;; k" := (bind r (fun x => k))
  (at level 61, r at next level, right associativity) : py_scope.
Local Open Scope py_scope.

(** ** Python strings *)

Module PyStr.

(** Code points below 256 for which [str.isspace] holds; [str.strip] without
    argument removes exactly these. *)
Definition is_space (c : ascii) : bool :=
  let n := N_of_ascii c in
  (((9 <=? n) && (n <=? 13)) || ((28 <=? n) && (n <=? 32))
   || (n =? 133) || (n =? 160))%N.

(** Blanks that [int] skips around a literal: C [isspace] below 127, Unicode
    blanks above. *)
Definition is_int_space (c : ascii) : bool :=
  let n := N_of_ascii c in
  (((9 <=? n) && (n <=? 13)) || (n =? 32) || (n =? 133) || (n =? 160))%N.

Fixpoint lstrip (s : string) : string :=
  match s with
  | EmptyString => EmptyString
  | String c r => if is_space c then lstrip r else s
  end.

Fixpoint rstrip (s : string) : string :=
  match s with
  | EmptyString => EmptyString
  | String c r =>
      match rstrip r with
      | EmptyString => if is_space c then EmptyString else String c EmptyString
      | r' => String c r'
      end
  end.

Definition strip (s : string) : string := rstrip (lstrip s).

(** [s.split(sep)] for a one-character separator. *)
Fixpoint split (sep : ascii) (s : string) : list string :=
  match s with
  | EmptyString => [EmptyString]
  | String c r =>
      if Ascii.eqb c sep then EmptyString :: split sep r
      else match split sep r with
           | h :: t => String c h :: t
           | [] => [String c EmptyString]
           end
  end.

(** [c.upper()] for one character of Latin-1: the letters a-z and the
    letters from 224 to 254 other than the division sign move 32 down; the
    sharp s becomes SS; every other character stays.  Two upper-case forms
    lie outside Latin-1, U+0178 for 255 and U+039C for the micro sign 181:
    they stand as their UTF-8 bytes, as the literals of the program with
    such characters do. *)
Definition upper_char (c : ascii) : string :=
  let n := N_of_ascii c in
  if (((97 <=? n) && (n <=? 122))
      || ((224 <=? n) && (n <=? 254) && negb (n =? 247)))%N
  then String (ascii_of_N (n - 32)) EmptyString
  else if (n =? 223)%N then String "S" (String "S" EmptyString)
  else if (n =? 255)%N
       then String (ascii_of_N 197) (String (ascii_of_N 184) EmptyString)
  else if (n =? 181)%N
       then String (ascii_of_N 206) (String (ascii_of_N 156) EmptyString)
  else String c EmptyString.

(** [s.upper()]. *)
Fixpoint upper (s : string) : string :=
  match s with
  | EmptyString => EmptyString
  | String c r => upper_char c ++ upper r
  end.

Definition is_digit (c : ascii) : bool :=
  let n := N_of_ascii c in ((48 <=? n) && (n <=? 57))%N.

Definition digit_val (c : ascii) : Z := Z.of_N (N_of_ascii c) - 48.

(** Default of [sys.int_max_str_digits]. *)
Definition int_max_str_digits : Z := 4300.

Fixpoint skip_int_space (s : string) : string :=
  match s with
  | EmptyString => EmptyString
  | String c r => if is_int_space c then skip_int_space r else s
  end.

(** The digit run of a decimal literal: digits, with single underscores
    between digits only.  Returns the value, the number of digits and the
    text left. *)
Fixpoint scan_digits (s : string) (prev_us : bool) (acc cnt : Z)
  : option (Z * Z * string) :=
  match s with
  | EmptyString => if prev_us then None else Some (acc, cnt, EmptyString)
  | String c r =>
      if is_digit c then scan_digits r false (acc * 10 + digit_val c) (cnt + 1)
      else if Ascii.eqb c "_"%char then
             if prev_us then None else scan_digits r true acc cnt
           else if prev_us then None else Some (acc, cnt, s)
  end.

Definition scan_literal (s : string) : option Z :=
  match s with
  | String "_"%char _ => None
  | _ =>
      match scan_digits s false 0 0 with
      | Some (v, cnt, rest) =>
          if cnt =? 0 then None
          else if int_max_str_digits <? cnt then None
          else match skip_int_space rest with
               | EmptyString => Some v
               | _ => None
               end
      | None => None
      end
  end.

(** [int(s)] in base ten; [None] is [ValueError]. *)
Definition py_int (s : string) : option Z :=
  match skip_int_space s with
  | String "+"%char r => scan_literal r
  | String "-"%char r => option_map Z.opp (scan_literal r)
  | r => scan_literal r
  end.

(** [needle in s] for strings. *)
Fixpoint contains (needle s : string) : bool :=
  if String.prefix needle s then true
  else match s with
       | EmptyString => false
       | String _ r => contains needle r
       end.

End PyStr.

(** ** Calendar dates ([datetime.date]) *)

Module Calendar.

Record date : Type := Date { year : Z; month : Z; day : Z }.

Definition MINYEAR : Z := 1.
Definition MAXYEAR : Z := 9999.
Definition MAXORDINAL : Z := 3652059.

Definition is_leap (y : Z) : bool :=
  (y mod 4 =? 0) && (negb (y mod 100 =? 0) || (y mod 400 =? 0)).

(** [_DAYS_IN_MONTH], index 0 unused. *)
Definition DAYS_IN_MONTH : list Z :=
  [-1; 31; 28; 31; 30; 31; 30; 31; 31; 30; 31; 30; 31].

(** [_DAYS_BEFORE_MONTH], index 0 unused. *)
Definition DAYS_BEFORE_MONTH : list Z :=
  [-1; 0; 31; 59; 90; 120; 151; 181; 212; 243; 273; 304; 334].

Definition tbl (t : list Z) (m : Z) : Z := nth (Z.to_nat m) t 0.

Definition days_before_year (y : Z) : Z :=
  let y := y - 1 in y * 365 + y / 4 - y / 100 + y / 400.

Definition days_in_month (y m : Z) : Z :=
  if (m =? 2) && is_leap y then 29 else tbl DAYS_IN_MONTH m.

Definition days_before_month (y m : Z) : Z :=
  tbl DAYS_BEFORE_MONTH m + (if (2 <? m) && is_leap y then 1 else 0).

Definition ymd2ord (y m d : Z) : Z :=
  days_before_year y + days_before_month y m + d.

Definition DI400Y : Z := 146097.
Definition DI100Y : Z := 36524.
Definition DI4Y : Z := 1461.

Definition ord2ymd (n : Z) : date :=
  let n := n - 1 in
  let n400 := n / DI400Y in
  let n := n mod DI400Y in
  let y := n400 * 400 + 1 in
  let n100 := n / DI100Y in
  let n := n mod DI100Y in
  let n4 := n / DI4Y in
  let n := n mod DI4Y in
  let n1 := n / 365 in
  let n := n mod 365 in
  let y := y + n100 * 100 + n4 * 4 + n1 in
  if (n1 =? 4) || (n100 =? 4) then Date (y - 1) 12 31
  else
    let leapyear := (n1 =? 3) && (negb (n4 =? 24) || (n100 =? 3)) in
    let m := Z.shiftr (n + 50) 5 in
    let preceding :=
      tbl DAYS_BEFORE_MONTH m + (if (2 <? m) && leapyear then 1 else 0) in
    if n <? preceding then
      let m := m - 1 in
      let preceding :=
        preceding
        - (tbl DAYS_IN_MONTH m + (if (m =? 2) && leapyear then 1 else 0)) in
      Date y m (n - preceding + 1)
    else Date y m (n - preceding + 1).

(** The field check of the [date] constructor. *)
Definition valid_date (d : date) : bool :=
  (MINYEAR <=? year d) && (year d <=? MAXYEAR)
  && (1 <=? month d) && (month d <=? 12)
  && (1 <=? day d) && (day d <=? days_in_month (year d) (month d)).

(** [dt.date(y, m, d)]; [None] is [ValueError]. *)
Definition mk_date (y m d : Z) : option date :=
  if valid_date (Date y m d) then Some (Date y m d) else None.

Definition toordinal (d : date) : Z := ymd2ord (year d) (month d) (day d).

(** [d + timedelta(days=k)]; [None] is [OverflowError]. *)
Definition add_days (d : date) (k : Z) : option date :=
  let o := toordinal d + k in
  if (0 <? o) && (o <=? MAXORDINAL) then Some (ord2ymd o) else None.

(** [a < b] on dates compares (year, month, day). *)
Definition date_ltb (a b : date) : bool :=
  (year a <? year b)
  || ((year a =? year b)
      && ((month a <? month b)
          || ((month a =? month b) && (day a <? day b)))).

(** [a <= b] on dates. *)
Definition date_leb (a b : date) : bool :=
  (year a <? year b)
  || ((year a =? year b)
      && ((month a <? month b)
          || ((month a =? month b) && (day a <=? day b)))).

Definition digit_char (n : Z) : ascii := ascii_of_N (Z.to_N (48 + n)).

Fixpoint zeros (k : nat) : string :=
  match k with
  | O => EmptyString
  | S k' => String "0"%char (zeros k')
  end.

(** ["%0<w>d" % n] for [0 <= n]. *)
Definition fmt0 (w : nat) (n : Z) : string :=
  let s := NilZero.string_of_uint (N.to_uint (Z.to_N n)) in
  zeros (w - String.length s) ++ s.

(** [d.isoformat()], also [str(d)]. *)
Definition isoformat (d : date) : string :=
  fmt0 4 (year d) ++ "-" ++ fmt0 2 (month d) ++ "-" ++ fmt0 2 (day d).

End Calendar.

Import PyStr Calendar.

(** ** Request model: [parse_date] *)

Definition invalid_date_msg (s : string) : string :=
  "Invalid date: '" ++ s ++ "'. Expected YYYY-MM-DD".

Definition parse_date (s : string) (fallback : date) : result date :=
  let s := strip s in
  if String.eqb s "" then Ok fallback
  else
    match map py_int (split "-"%char s) with
    | [Some y; Some m; Some d] =>
        match mk_date y m d with
        | Some dt => Ok dt
        | None => Raise (Exn ValueError (invalid_date_msg s))
        end
    | _ => Raise (Exn ValueError (invalid_date_msg s))
    end.

(** ** Tables returned by the provider ([pandas.DataFrame]) *)

(** A numeric column; [None] is NaN. *)
Definition column : Type := list (option Q).

(** An element of the array behind the volume column: a scalar, a row of
    scalars (the column is two-dimensional when the provider labels columns
    by field and ticker), or [None]. *)
Inductive cell : Type :=
| CNum (x : option Q)
| CRow (xs : list (option Q))
| CNone.

Record frame : Type := Frame {
  index : list Z;                       (* timestamps *)
  columns : list (string * column);     (* numeric columns, in order *)
  volume : option (list cell)           (* the "Volume" column *)
}.

Fixpoint col_get (name : string) (cols : list (string * column))
  : option column :=
  match cols with
  | [] => None
  | (k, v) :: r => if String.eqb k name then Some v else col_get name r
  end.

(** [df[name] = v]: replaces the column of that name or appends a new one. *)
Fixpoint col_set (name : string) (v : column) (cols : list (string * column))
  : list (string * column) :=
  match cols with
  | [] => [(name, v)]
  | (k, x) :: r =>
      if String.eqb k name then (k, v) :: r else (k, x) :: col_set name v r
  end.

Definition has_column (name : string) (df : frame) : bool :=
  match col_get name (columns df) with Some _ => true | None => false end.

(** [df[name]] on a numeric column; a missing label is [KeyError]. *)
Definition frame_get (name : string) (df : frame) : result column :=
  match col_get name (columns df) with
  | Some c => Ok c
  | None => Raise (Exn KeyError name)
  end.

Definition frame_set (name : string) (v : column) (df : frame) : frame :=
  Frame (index df) (col_set name v (columns df)) (volume df).

(** [len(df)]. *)
Definition frame_len (df : frame) : nat := List.length (index df).

(** [df.empty]: no rows or no columns. *)
Definition frame_empty (df : frame) : bool :=
  (frame_len df =? 0)%nat
  || match columns df, volume df with
     | [], None => true
     | _, _ => false
     end.

(** ** Series transformer: [Series.rolling(window=w).mean()]

    The fixed-window rolling mean as pandas computes it: one pass with a
    running sum and a count of the observations in the window, values
    leaving the window subtracted and values entering it added;
    [min_periods] is the window size.  The guards pandas adds against
    floating point drift are identities on exact numbers and are left out. *)

Module Rolling.

Record roll_state : Type := RollState { nobs : Z; sum_x : Q }.

Definition roll_init : roll_state := RollState 0 (0 # 1).

Definition add_mean (v : option Q) (st : roll_state) : roll_state :=
  match v with
  | Some x => RollState (nobs st + 1) (sum_x st + x)
  | None => st
  end.

Definition remove_mean (v : option Q) (st : roll_state) : roll_state :=
  match v with
  | Some x => RollState (nobs st - 1) (sum_x st - x)
  | None => st
  end.

Definition calc_mean (minp : Z) (st : roll_state) : option Q :=
  if (minp <=? nobs st) && (0 <? nobs st)
  then Some (sum_x st / inject_Z (nobs st))%Q
  else None.

(** Window bounds of the fixed-window indexer, clipped at 0. *)
Definition win_start (w i : nat) : nat := (i + 1 - w)%nat.
Definition win_end (i : nat) : nat := (i + 1)%nat.

Definition value_at (values : column) (j : nat) : option Q :=
  nth j values None.

(** [for j in range(a, b): step(values[j])]. *)
Definition over_range (step : option Q -> roll_state -> roll_state)
  (values : column) (a b : nat) (st : roll_state) : roll_state :=
  fold_left (fun st j => step (value_at values j) st) (seq a (b - a)) st.

(** The loop of [roll_mean] from position [i] on, [todo] positions left. *)
Fixpoint roll_from (values : column) (w : nat) (minp : Z) (i todo : nat)
  (st : roll_state) : column :=
  match todo with
  | O => []
  | S k =>
      let s := win_start w i in
      let e := win_end i in
      let st' :=
        if (i =? 0)%nat || (win_end (i - 1) <=? s)%nat
        then over_range add_mean values s e roll_init
        else over_range add_mean values (win_end (i - 1)) e
               (over_range remove_mean values (win_start w (i - 1)) s st) in
      calc_mean minp st' :: roll_from values w minp (S i) k st'
  end.

Definition rolling_mean (w : nat) (values : column) : column :=
  roll_from values w (Z.of_nat w) 0 (List.length values) roll_init.

End Rolling.

Import Rolling.

(** ** The interface state *)

Inductive widget_state : Type := NORMAL | DISABLED.

Inductive panel : Type := PricePanel | VolumePanel.

(** What the figure holds, as the calls made on it since it was last
    cleared. *)
Inductive draw_op : Type :=
| AddSubplots
| PlotLine (label : string) (dashed : bool) (xs : list Z) (ys : column)
| SetTitle (s : string)
| SetYLabel (p : panel) (s : string)
| ShowGrid (p : panel)
| ShowLegend
| Bar (xs : list Z) (heights : column)
| DateAxis
| TightLayout
| DrawIdle.

(** A [messagebox.showerror] notice. *)
Record notice : Type := Notice { n_title : string; n_msg : string }.

Record ui : Type := Ui {
  symbol_var : string;
  start_var : string;
  end_var : string;
  interval_var : string;
  ma5_var : bool;
  ma20_var : bool;
  ma50_var : bool;
  load_btn : widget_state;
  status_var : string;
  chart : list draw_op;
  notices : list notice
}.

Definition set_load_btn (b : widget_state) (u : ui) : ui :=
  Ui (symbol_var u) (start_var u) (end_var u) (interval_var u)
     (ma5_var u) (ma20_var u) (ma50_var u) b (status_var u) (chart u)
     (notices u).

Definition set_status (s : string) (u : ui) : ui :=
  Ui (symbol_var u) (start_var u) (end_var u) (interval_var u)
     (ma5_var u) (ma20_var u) (ma50_var u) (load_btn u) s (chart u)
     (notices u).

Definition set_chart (c : list draw_op) (u : ui) : ui :=
  Ui (symbol_var u) (start_var u) (end_var u) (interval_var u)
     (ma5_var u) (ma20_var u) (ma50_var u) (load_btn u) (status_var u) c
     (notices u).

Definition set_dates (s e : string) (u : ui) : ui :=
  Ui (symbol_var u) s e (interval_var u)
     (ma5_var u) (ma20_var u) (ma50_var u) (load_btn u) (status_var u)
     (chart u) (notices u).

(** [messagebox.showerror(title, msg)]. *)
Definition showerror (title msg : string) (u : ui) : ui :=
  Ui (symbol_var u) (start_var u) (end_var u) (interval_var u)
     (ma5_var u) (ma20_var u) (ma50_var u) (load_btn u) (status_var u)
     (chart u) (notices u ++ [Notice title msg])%list.

(** [ax.<call>(...)] on the current figure. *)
Definition draw (op : draw_op) (u : ui) : ui :=
  set_chart (chart u ++ [op])%list u.

(** ** What the user can do to the interface while a fetch is in flight *)

Inductive user_edit : Type :=
| TypeSymbol (s : string)
| TypeStart (s : string)
| TypeEnd (s : string)
| ChooseInterval (s : string)
| ToggleMa5
| ToggleMa20
| ToggleMa50.

Definition apply_edit (e : user_edit) (u : ui) : ui :=
  match e with
  | TypeSymbol s =>
      Ui s (start_var u) (end_var u) (interval_var u) (ma5_var u) (ma20_var u)
         (ma50_var u) (load_btn u) (status_var u) (chart u) (notices u)
  | TypeStart s =>
      Ui (symbol_var u) s (end_var u) (interval_var u) (ma5_var u)
         (ma20_var u) (ma50_var u) (load_btn u) (status_var u) (chart u)
         (notices u)
  | TypeEnd s =>
      Ui (symbol_var u) (start_var u) s (interval_var u) (ma5_var u)
         (ma20_var u) (ma50_var u) (load_btn u) (status_var u) (chart u)
         (notices u)
  | ChooseInterval s =>
      Ui (symbol_var u) (start_var u) (end_var u) s (ma5_var u) (ma20_var u)
         (ma50_var u) (load_btn u) (status_var u) (chart u) (notices u)
  | ToggleMa5 =>
      Ui (symbol_var u) (start_var u) (end_var u) (interval_var u)
         (negb (ma5_var u)) (ma20_var u) (ma50_var u) (load_btn u)
         (status_var u) (chart u) (notices u)
  | ToggleMa20 =>
      Ui (symbol_var u) (start_var u) (end_var u) (interval_var u)
         (ma5_var u) (negb (ma20_var u)) (ma50_var u) (load_btn u)
         (status_var u) (chart u) (notices u)
  | ToggleMa50 =>
      Ui (symbol_var u) (start_var u) (end_var u) (interval_var u)
         (ma5_var u) (ma20_var u) (negb (ma50_var u)) (load_btn u)
         (status_var u) (chart u) (notices u)
  end.

Definition apply_edits (es : list user_edit) (u : ui) : ui :=
  fold_left (fun u e => apply_edit e u) es u.

Definition is_toggle (e : user_edit) : bool :=
  match e with
  | ToggleMa5 | ToggleMa20 | ToggleMa50 => true
  | _ => false
  end.

(** ** Request model: validation in [_fetch_and_plot_async] *)

(** The arguments handed to the background thread. *)
Record request : Type := Request {
  rq_symbol : string;
  rq_start : date;
  rq_end : date;
  rq_interval : string
}.

(** The values offered by the interval combobox. *)
Definition interval_choices : list string :=
  ["1d"; "1wk"; "1mo"; "1h"; "30m"; "15m"; "5m"; "1m"].

(** [x or default] on strings. *)
Definition str_or (x default : string) : string :=
  if String.eqb x "" then default else x.

(** The [try] block of [_fetch_and_plot_async]. *)
Definition validate (today : date) (u : ui) : result request :=
  let symbol := upper (strip (str_or (symbol_var u) "")) in
  if String.eqb symbol "" then Raise (Exn ValueError "Ticker cannot be empty")
  else
    fb_start <- match add_days today (-365) with
                | Some d => Ok d
                | None => Raise (Exn OverflowError "date value out of range")
                end ;;
    start <- parse_date (start_var u) fb_start ;;
    end_ <- parse_date (end_var u) today ;;
    if date_ltb end_ start
    then Raise (Exn ValueError "End date is before start date")
    else Ok (Request symbol start end_ (str_or (interval_var u) "1d")).

Definition loading_msg (r : request) : string :=
  "Loading " ++ rq_symbol r ++ " " ++ rq_interval r ++ " from "
  ++ isoformat (rq_start r) ++ " to " ++ isoformat (rq_end r) ++ "…".

(** [_fetch_and_plot_async]: the new interface state and, when validation
    passes, the arguments of the thread it starts. *)
Definition _fetch_and_plot_async (today : date) (u : ui)
  : ui * option request :=
  match validate today u with
  | Raise e => (showerror "Input error" (exn_msg e) u, None)
  | Ok r => (set_status (loading_msg r) (set_load_btn DISABLED u), Some r)
  end.

(** ** Quick ranges *)

Inductive payload : Type :=
| Ytd
| Max
| Days (n : Z).

Definition ranges : list (string * payload) :=
  [("1M", Days 30); ("3M", Days 90); ("6M", Days 182); ("YTD", Ytd);
   ("1Y", Days 365); ("5Y", Days (365 * 5)); ("Max", Max)].

Definition quick_range (p : payload) (today : date) : result (date * date) :=
  match p with
  | Ytd => match mk_date (year today) 1 1 with
           | Some s => Ok (s, today)
           | None => Raise (Exn ValueError "year out of range")
           end
  | Max => match mk_date 1980 1 1 with
           | Some s => Ok (s, today)
           | None => Raise (Exn ValueError "year out of range")
           end
  | Days n => match add_days today (- n) with
              | Some s => Ok (s, today)
              | None => Raise (Exn OverflowError "date value out of range")
              end
  end.

(** [_set_quick_range]: writes both date fields, then starts a fetch.  An
    exception leaves the handler before anything is written. *)
Definition _set_quick_range (p : payload) (today : date) (u : ui)
  : result (ui * option request) :=
  se <- quick_range p today ;;
  Ok (_fetch_and_plot_async today
        (set_dates (isoformat (fst se)) (isoformat (snd se)) u)).

(** ** Fetch controller: the background thread [_fetch_and_plot] *)

(** The arguments of one [yf.download] call. *)
Record provider_call : Type := ProviderCall {
  pc_symbol : string;
  pc_start : string;
  pc_end : string;
  pc_interval : string
}.

Inductive provider_reply : Type :=
| Raises (e : exn)
| ReturnsNone
| ReturnsTable (df : frame).

Definition provider : Type := provider_call -> provider_reply.

Definition no_data_msg : string :=
  "No data returned. Try a different symbol, date range, or interval.".

(** The call the thread makes for a request: the end bound is the day after
    the requested end. *)
Definition download_call (r : request) : result provider_call :=
  match add_days (rq_end r) 1 with
  | Some end_inclusive =>
      Ok (ProviderCall (rq_symbol r) (isoformat (rq_start r))
            (isoformat end_inclusive) (rq_interval r))
  | None => Raise (Exn OverflowError "date value out of range")
  end.

(** The [try] block of [_fetch_and_plot].  The copy of the table and the
    conversion of its index to timestamps leave a table of this model as it
    is. *)
Definition fetch (yf_download : provider) (r : request) : result frame :=
  c <- download_call r ;;
  match yf_download c with
  | Raises e => Raise e
  | ReturnsNone => Raise (Exn RuntimeError no_data_msg)
  | ReturnsTable df =>
      if frame_empty df then Raise (Exn RuntimeError no_data_msg) else Ok df
  end.

Definition price_column (df : frame) : string :=
  if has_column "Adj Close" df then "Adj Close" else "Close".

(** The moving-average windows of the three toggles. *)
Definition ma_catalog : list (string * nat) :=
  [("MA5", 5%nat); ("MA20", 20%nat); ("MA50", 50%nat)].

(** [if var.get(): df[name] = df[price_col].rolling(window=w).mean();
    ma_cols.append(name)]. *)
Definition add_ma (enabled : bool) (name : string) (w : nat)
  (price_col : string) (acc : frame * list string)
  : result (frame * list string) :=
  if enabled then
    c <- frame_get price_col (fst acc) ;;
    Ok (frame_set name (rolling_mean w c) (fst acc), (snd acc ++ [name])%list)
  else Ok acc.

(** The moving-average part of [_fetch_and_plot].  The toggles are read from
    the interface variables when this code runs, in the thread. *)
Definition transform (u : ui) (df : frame)
  : result (frame * string * list string) :=
  let price_col := price_column df in
  a <- add_ma (ma5_var u) "MA5" 5 price_col (df, []) ;;
  a <- add_ma (ma20_var u) "MA20" 20 price_col a ;;
  a <- add_ma (ma50_var u) "MA50" 50 price_col a ;;
  Ok (fst a, price_col, snd a).

(** When a scheduled call runs, relative to the thread that scheduled it:
    [after(0, f)] only queues [f] for the interactive thread. *)
Inductive moment : Type :=
| InsideExcept      (* the thread is still in its [except] clause *)
| AfterExcept.      (* the thread has left the clause *)

(** The name [e] of [except Exception as e] in the thread's frame: bound
    inside the clause, unbound once the clause is left. *)
Definition e_cell (caught : exn) (m : moment) : option exn :=
  match m with
  | InsideExcept => Some caught
  | AfterExcept => None
  end.

(** The two lambdas handed to [after].  The first refers to the variable [e]
    of the thread's frame, the second to variables that stay bound. *)
Inductive callback : Type :=
| OnFetchError (e : moment -> option exn)
| DrawPlot (symbol : string) (df : frame) (price_col : string)
    (ma_cols : list string) (interval : string) (start end_ : date).

Inductive worker_result : Type :=
| Scheduled (cb : callback)
| Died (e : exn).      (* not caught in the thread, nothing scheduled *)

(** [_fetch_and_plot]; [u] is the interface state when the toggles are
    read. *)
Definition _fetch_and_plot (yf_download : provider) (r : request) (u : ui)
  : worker_result :=
  match fetch yf_download r with
  | Raise e => Scheduled (OnFetchError (e_cell e))
  | Ok df =>
      match transform u df with
      | Ok (df', price_col, ma_cols) =>
          Scheduled (DrawPlot (rq_symbol r) df' price_col ma_cols
                       (rq_interval r) (rq_start r) (rq_end r))
      | Raise e => Died e
      end
  end.

(** ** Render dispatcher: the calls run on the interactive thread *)

(** Handlers change the interface step by step and may stop with an
    exception, keeping the changes made so far. *)
Definition act (A : Type) : Type := ui -> ui * result A.

Definition act_ret {A} (a : A) : act A := fun u => (u, Ok a).

Definition act_bind {A B} (m : act A) (k : A -> act B) : act B :=
  fun u => match m u with
           | (u', Ok a) => k a u'
           | (u', Raise e) => (u', Raise e)
           end.

Definition act_do (f : ui -> ui) : act unit := fun u => (f u, Ok tt).

Definition act_lift {A} (r : result A) : act A := fun u => (u, r).

Notation "x <~ m ;; k" := (act_bind m (fun x => k))
  (at level 61, m at next level, right associativity) : py_scope.
Notation "m ;;; k" := (act_bind m (fun _ => k))
  (at level 61, right associativity) : py_scope.

Definition _on_fetch_error (e : exn) : act unit :=
  act_do (set_load_btn NORMAL) ;;;
  act_do (set_status "Error") ;;;
  act_do (showerror "Download error" (exn_msg e)).

(** [v[0]] on an element of the volume array. *)
Definition getitem0 (v : cell) : result (option Q) :=
  match v with
  | CNum _ => Raise (Exn IndexError "invalid index to scalar variable.")
  | CRow [] =>
      Raise (Exn IndexError "index 0 is out of bounds for axis 0 with size 0")
  | CRow (x :: _) => Ok x
  | CNone => Raise (Exn TypeError "'NoneType' object is not subscriptable")
  end.

(** [[v[0] for v in vol]]. *)
Fixpoint first_of_each (vol : list cell) : result column :=
  match vol with
  | [] => Ok []
  | v :: r =>
      x <- getitem0 v ;;
      xs <- first_of_each r ;;
      Ok (x :: xs)
  end.

Definition plot_title (symbol price_col interval : string) (start end_ : date)
  : string :=
  symbol ++ "  •  " ++ price_col ++ "  •  " ++ interval ++ "   ("
  ++ isoformat start ++ " → " ++ isoformat end_ ++ ")".

Definition str_of_nat (n : nat) : string :=
  NilZero.string_of_uint (Nat.to_uint n).

Definition loaded_msg (symbol : string) (rows : nat) : string :=
  "Loaded " ++ symbol ++ ": " ++ str_of_nat rows ++ " rows".

(** [for c in ma_cols: ax_price.plot(df.index, df[c], ...)]. *)
Fixpoint plot_ma_lines (df : frame) (ma_cols : list string) : act unit :=
  match ma_cols with
  | [] => act_ret tt
  | c :: r =>
      ys <~ act_lift (frame_get c df) ;;
      act_do (draw (PlotLine c true (index df) ys)) ;;;
      plot_ma_lines df r
  end.

(** The [if "Volume" in df.columns] block. *)
Definition draw_volume (df : frame) : act unit :=
  match volume df with
  | Some vol =>
      match first_of_each vol with
      | Ok lst => act_do (draw (Bar (index df) lst))
      | Raise e => act_do (showerror "Volume error" (exn_msg e))
      end ;;;
      act_do (draw (SetYLabel VolumePanel "Volume")) ;;;
      act_do (draw (ShowGrid VolumePanel))
  | None => act_ret tt
  end.

Definition _draw_plot (symbol : string) (df : frame) (price_col : string)
  (ma_cols : list string) (interval : string) (start end_ : date)
  : act unit :=
  act_do (set_chart []) ;;;
  act_do (draw AddSubplots) ;;;
  ys <~ act_lift (frame_get price_col df) ;;
  act_do (draw (PlotLine price_col false (index df) ys)) ;;;
  plot_ma_lines df ma_cols ;;;
  act_do (draw (SetTitle (plot_title symbol price_col interval start end_))) ;;;
  act_do (draw (SetYLabel PricePanel "Price")) ;;;
  act_do (draw (ShowGrid PricePanel)) ;;;
  act_do (draw ShowLegend) ;;;
  draw_volume df ;;;
  act_do (draw DateAxis) ;;;
  act_do (draw TightLayout) ;;;
  act_do (draw DrawIdle) ;;;
  act_do (set_status (loaded_msg symbol (frame_len df))) ;;;
  act_do (set_load_btn NORMAL).

(** What reading the unbound [e] raises. *)
Definition unbound_e : exn :=
  Exn NameError
    "cannot access free variable 'e' where it is not associated with a value in enclosing scope".

(** Running a scheduled call at moment [m].  An exception of the call is
    reported by the event loop and the interface stays as the call left
    it. *)
Definition run_callback (m : moment) (cb : callback) : act unit :=
  match cb with
  | OnFetchError e =>
      match e m with
      | Some exc => _on_fetch_error exc
      | None =>
          act_lift (Raise unbound_e)
      end
  | DrawPlot symbol df price_col ma_cols interval start end_ =>
      _draw_plot symbol df price_col ma_cols interval start end_
  end.

(** One fetch cycle from a trigger on interface state [u]: validation and
    dispatch, the thread, the scheduled call.  [edits1] is what the user
    does to the interface between dispatch and the reading of the toggles,
    [edits2] between then and the scheduled call; [m] is when the scheduled
    call runs. *)
Definition fetch_cycle (today : date) (yf_download : provider)
  (edits1 edits2 : list user_edit) (m : moment) (u : ui) : ui * result unit :=
  match _fetch_and_plot_async today u with
  | (u1, None) => (u1, Ok tt)
  | (u1, Some r) =>
      let u2 := apply_edits edits1 u1 in
      match _fetch_and_plot yf_download r u2 with
      | Scheduled cb => run_callback m cb (apply_edits edits2 u2)
      | Died e => (apply_edits edits2 u2, Raise e)
      end
  end.

(** ** Saving the chart: [_save_png] *)

(** [_save_png]; [fname] is what the file dialog returns (empty when it is
    cancelled) and [savefig] the figure's writer, which may raise. *)
Definition _save_png (fname : string)
  (savefig : string -> list draw_op -> result unit) : act unit :=
  fun u =>
    if String.eqb fname "" then (u, Ok tt)
    else match savefig fname (chart u) with
         | Ok _ => (set_status ("Saved: " ++ fname) u, Ok tt)
         | Raise e => (showerror "Save failed" (exn_msg e) u, Ok tt)
         end.

(** ** Start-up: [AppState] and [StockApp.__init__] *)

Record AppState : Type := MkAppState {
  st_symbol : string;
  st_start : date;
  st_end : date;
  st_interval : string;
  st_ma5 : bool;
  st_ma20 : bool;
  st_ma50 : bool;
  st_ma200 : bool
}.

(** The defaults of [AppState], computed on the day the class is defined. *)
Definition default_state (today0 : date) : result AppState :=
  match add_days today0 (-365) with
  | Some start =>
      Ok (MkAppState "AAPL" start today0 "1d" true true true false)
  | None => Raise (Exn OverflowError "date value out of range")
  end.

(** The interface as [_build_ui] leaves it. *)
Definition built_ui : ui :=
  Ui "" "" "" "" true true true NORMAL "Ready" [AddSubplots] [].

(** [__init__] after [_build_ui]: the variables are set from the state,
    then the first fetch is started. *)
Definition init_app (st : AppState) (today : date) : ui * option request :=
  _fetch_and_plot_async today
    (Ui (st_symbol st) (isoformat (st_start st)) (isoformat (st_end st))
        (st_interval st) (st_ma5 st) (st_ma20 st) (st_ma50 st)
        (load_btn built_ui) (status_var built_ui) (chart built_ui)
        (notices built_ui)).

(** ** The heat map script: reading the tickers *)

(** The [for line in f] loop: every line read is counted and appended
    trimmed; the loop is left once the count has passed 20. *)
Fixpoint read_loop (lines : list string) (count : Z) (tickers : list string)
  : list string :=
  match lines with
  | [] => tickers
  | line :: rest =>
      let count := count + 1 in
      let tickers := (tickers ++ [strip line])%list in
      if 20 <? count then tickers else read_loop rest count tickers
  end.

(** The order of [str]: by code points, a prefix first. *)
Module StringOrder <: Orders.TotalLeBool.

Definition t := string.

Definition leb := String.leb.

Theorem leb_total : forall a1 a2, leb a1 a2 = true \/ leb a2 a1 = true.
Proof. exact String.leb_total. Qed.

End StringOrder.

Module StringSort := Mergesort.Sort StringOrder.

(** [tickers.sort()] after the loop. *)
Definition read_tickers (lines : list string) : list string :=
  StringSort.sort (read_loop lines 0 []).

(** * Readings of the specification used in the statements *)

(** The specification's reading of a trailing mean: the prices at positions
    [i-w+1 .. i], their sum divided by their number; undefined before the
    window is full, and undefined when a price in the window is. *)
Definition window_prices (w i : nat) (prices : column) : list (option Q) :=
  map (fun j => nth j prices None) (seq (i + 1 - w) w).

Fixpoint sum_defined (l : list (option Q)) : option Q :=
  match l with
  | [] => Some (0 # 1)
  | None :: _ => None
  | Some x :: r => option_map (Qplus x) (sum_defined r)
  end.

Definition arithmetic_mean (l : list (option Q)) : option Q :=
  option_map (fun s => (s / inject_Z (Z.of_nat (List.length l)))%Q)
    (sum_defined l).

Definition trailing_mean (w i : nat) (prices : column) : option Q :=
  if (i + 1 <? w)%nat then None
  else arithmetic_mean (window_prices w i prices).

(** Equality of possibly undefined rationals: both undefined, or both
    defined and equal as fractions. *)
Definition oq_eq (a b : option Q) : Prop :=
  match a, b with
  | None, None => True
  | Some x, Some y => (x == y)%Q
  | _, _ => False
  end.

(** Which toggle switches a moving average of the catalog on. *)
Definition ma_enabled (u : ui) (name : string) : bool :=
  if String.eqb name "MA5" then ma5_var u
  else if String.eqb name "MA20" then ma20_var u
  else if String.eqb name "MA50" then ma50_var u
  else false.

(** Text of the exact shape YYYY-MM-DD: four digits, a hyphen, two digits,
    a hyphen, two digits. *)
Definition is_strict_format (s : string) : bool :=
  match s with
  | String y1 (String y2 (String y3 (String y4 (String s1
      (String m1 (String m2 (String s2 (String d1 (String d2
        EmptyString))))))))) =>
      is_digit y1 && is_digit y2 && is_digit y3 && is_digit y4
      && Ascii.eqb s1 "-" && is_digit m1 && is_digit m2
      && Ascii.eqb s2 "-" && is_digit d1 && is_digit d2
  | _ => false
  end.

(** The length in days of one unit of a sampling interval, for the
    intervals that are whole days. *)
Definition interval_unit_days (interval : string) : option Z :=
  if String.eqb interval "1d" then Some 1
  else if String.eqb interval "1wk" then Some 7
  else None.

(** The chart a completed redraw leaves. *)
Definition ma_lines (df : frame) (ma_cols : list string) : list draw_op :=
  map (fun c =>
         PlotLine c true (index df)
           (match col_get c (columns df) with Some ys => ys | None => [] end))
      ma_cols.

Definition volume_ops (df : frame) : list draw_op :=
  match volume df with
  | Some vol =>
      (match first_of_each vol with
       | Ok lst => [Bar (index df) lst]
       | Raise _ => []
       end ++ [SetYLabel VolumePanel "Volume"; ShowGrid VolumePanel])%list
  | None => []
  end.

Definition volume_notices (df : frame) : list notice :=
  match volume df with
  | Some vol =>
      match first_of_each vol with
      | Ok _ => []
      | Raise e => [Notice "Volume error" (exn_msg e)]
      end
  | None => []
  end.

Definition rendered_chart (symbol : string) (df : frame) (price_col : string)
  (ma_cols : list string) (interval : string) (start end_ : date)
  (prices : column) : list draw_op :=
  ([AddSubplots; PlotLine price_col false (index df) prices]
   ++ ma_lines df ma_cols
   ++ [SetTitle (plot_title symbol price_col interval start end_);
       SetYLabel PricePanel "Price"; ShowGrid PricePanel; ShowLegend]
   ++ volume_ops df
   ++ [DateAxis; TightLayout; DrawIdle])%list.

(** C6 read literally, for the intervals that are whole days: the end
    bound handed to the provider is the text of the requested end moved one
    unit of the interval on. *)
Definition end_bound_one_unit_past (r : request) : Prop :=
  forall k c d,
    interval_unit_days (rq_interval r) = Some k ->
    download_call r = Ok c ->
    add_days (rq_end r) k = Some d ->
    pc_end c = isoformat d.

(** The interface after a completed redraw. *)
Definition rendered_ui (symbol : string) (df : frame) (price_col : string)
  (ma_cols : list string) (interval : string) (start end_ : date)
  (prices : column) (u : ui) : ui :=
  Ui (symbol_var u) (start_var u) (end_var u) (interval_var u)
     (ma5_var u) (ma20_var u) (ma50_var u) NORMAL
     (loaded_msg symbol (frame_len df))
     (rendered_chart symbol df price_col ma_cols interval start end_ prices)
     (notices u ++ volume_notices df)%list.


(** C7 read literally: when taking the first element of each volume value
    fails, the failure is absorbed, so the redraw puts no notice in front of
    the user, and the volume panel is dropped, so nothing is drawn on it. *)
Definition volume_failure_absorbed : Prop :=
  forall (symbol : string) (df : frame) (pc : string) (cols : list string)
         (interval : string) (s e : date) (u : ui) (vol : list cell)
         (exc : exn),
    volume df = Some vol ->
    first_of_each vol = Raise exc ->
    let out := _draw_plot symbol df pc cols interval s e u in
    notices (fst out) = notices u
    /\ ~ In (SetYLabel VolumePanel "Volume") (chart (fst out)).

(** * Auxiliary definitions *)

(** Accumulated counts and totals of a run of prices. *)

(** Count and total of the defined values of a list. *)
Fixpoint count_defined (l : list (option Q)) : Z :=
  match l with
  | [] => 0
  | Some _ :: r => 1 + count_defined r
  | None :: r => count_defined r
  end.

Fixpoint total (l : list (option Q)) : Q :=
  match l with
  | [] => 0 # 1
  | Some x :: r => (x + total r)%Q
  | None :: r => total r
  end.

Definition slice (values : column) (a b : nat) : list (option Q) :=
  map (value_at values) (seq a (b - a)).

(** Two accumulator states agree: same count, sums equal as fractions. *)
Definition st_eq (s t : roll_state) : Prop :=
  nobs s = nobs t /\ (sum_x s == sum_x t)%Q.

(** The accumulator a full pass over [a .. b) would leave. *)
Definition window_state (values : column) (a b : nat) : roll_state :=
  RollState (count_defined (slice values a b)) (total (slice values a b)).

Fixpoint all_space (s : string) : bool :=
  match s with
  | EmptyString => true
  | String c r => is_space c && all_space r
  end.

(** Non-empty and made of the digits 0-9 only. *)
Fixpoint all_digits (s : string) : bool :=
  match s with
  | EmptyString => true
  | String c r => is_digit c && all_digits r
  end.

Definition digits_only (s : string) : bool :=
  negb (String.eqb s "") && all_digits s.

Fixpoint no_sep (sep : ascii) (s : string) : bool :=
  match s with
  | EmptyString => true
  | String c r => negb (Ascii.eqb c sep) && no_sep sep r
  end.

(** The zero-padded decimal text of the numbers a date is made of, checked
    one by one. *)
Definition fmt_ok (w : nat) (n : Z) : bool :=
  digits_only (fmt0 w n)
  && match py_int (fmt0 w n) with
     | Some v => v =? n
     | None => false
     end.

Fixpoint count_from (a : Z) (k : nat) : list Z :=
  match k with
  | O => []
  | S k' => a :: count_from (a + 1) k'
  end.

Definition upto (k : Z) : list Z := count_from 0 (Z.to_nat k).

(** The day after [d] by the rules of the calendar. *)
Definition next_day (d : date) : date :=
  if day d <? days_in_month (year d) (month d)
  then Date (year d) (month d) (day d + 1)
  else if month d <? 12 then Date (year d) (month d + 1) 1
       else Date (year d + 1) 1 1.

(** The last date [datetime.date] can hold. *)
Definition date_max : date := Date 9999 12 31.

(** The tables as functions of the leap flag alone. *)
Definition dbm_leap (leap : bool) (m : Z) : Z :=
  tbl DAYS_BEFORE_MONTH m + (if (2 <? m) && leap then 1 else 0).

Definition dim_leap (leap : bool) (m : Z) : Z :=
  if (m =? 2) && leap then 29 else tbl DAYS_IN_MONTH m.

(** The month search at the end of [ord2ymd], for the 0-based position [n]
    of a day in its year. *)
Definition month_day (leapyear : bool) (n : Z) : Z * Z :=
  let m := Z.shiftr (n + 50) 5 in
  let preceding := dbm_leap leapyear m in
  if n <? preceding then
    (m - 1,
     n - (preceding
          - (tbl DAYS_IN_MONTH (m - 1)
             + (if (m - 1 =? 2) && leapyear then 1 else 0))) + 1)
  else (m, n - preceding + 1).

(** The month search finds every day of every month, in both kinds of
    year, and no day lies past the end of its year. *)
Definition month_ok (leap : bool) (m : Z) : bool :=
  forallb (fun d =>
    let k := dbm_leap leap m + d - 1 in
    (fst (month_day leap k) =? m) && (snd (month_day leap k) =? d)
    && (0 <=? k) && (k <=? (if leap then 365 else 364))
    && (negb (k =? 365) || ((m =? 12) && (d =? 31))))
    (count_from 1 (Z.to_nat (dim_leap leap m))).

Definition months_ok (leap : bool) : bool :=
  forallb (month_ok leap) (count_from 1 12).

(** The table of days before a month grows by at least the length of the
    month, checked on every pair of months. *)
Definition month_pair_ok (leap : bool) (m : Z) : bool :=
  forallb (fun m' =>
             negb (m <? m')
             || (dbm_leap leap m + dim_leap leap m <=? dbm_leap leap m'))
    (count_from 1 12).

Definition month_pairs_ok (leap : bool) : bool :=
  forallb (month_pair_ok leap) (count_from 1 12).

(** No ASCII lower-case letter in a text. *)
Definition is_lower (c : ascii) : bool :=
  let n := N_of_ascii c in ((97 <=? n) && (n <=? 122))%N.

Fixpoint no_lower (s : string) : bool :=
  match s with
  | EmptyString => true
  | String c r => negb (is_lower c) && no_lower r
  end.

Fixpoint no_space (s : string) : bool :=
  match s with
  | EmptyString => true
  | String c r => negb (is_space c) && no_space r
  end.

(** What upper-casing does to one character: the result has no ASCII
    lower-case letter and is not empty; a blank stays as it is, and any
    other character gives no blank. *)
Definition upper_char_ok (c : ascii) : bool :=
  no_lower (upper_char c)
  && negb (String.eqb (upper_char c) "")
  && (if is_space c then String.eqb (upper_char c) (String c "")
      else no_space (upper_char c)).

(** Neither the first nor the last character is a blank. *)
Definition trimmed (s : string) : bool :=
  String.eqb (strip s) s.

(** A volume value that is a row with a first element, and the first
    elements of a column of such rows. *)
Definition is_row (v : cell) : bool :=
  match v with
  | CRow (_ :: _) => true
  | _ => false
  end.

Definition row_heads (vol : list cell) : column :=
  map (fun v => match v with CRow (x :: _) => x | _ => None end) vol.

(** ** Sample data *)

(** The literal check of the specification: ten prices, window five. *)
Definition ten_prices : column :=
  map (fun k => Some (inject_Z k)) [10; 11; 13; 12; 14; 15; 17; 16; 18; 20].

Definition sample_ui : ui :=
  Ui "aapl" "2024-01-01" "2024-07-15" "1d" true false false NORMAL "Ready"
     [PlotLine "Close" false [1; 2] [Some (1 # 1); Some (2 # 1)]] [].

Definition sample_today : date := Date 2024 7 15.

Definition sample_frame : frame :=
  Frame [1; 2; 3; 4; 5; 6; 7; 8; 9; 10] [("Close", ten_prices)]
        (Some (map (fun k => CNum (Some (inject_Z k)))
                 [100; 110; 120; 130; 140; 150; 160; 170; 180; 190])).

Definition empty_frame : frame := Frame [] [("Close", [])] None.

(** The sample table as the provider gives it when it labels columns by
    field and ticker: every volume value is a one-element row. *)
Definition sample_frame_rows : frame :=
  Frame [1; 2; 3] [("Close", [Some (10 # 1); Some (11 # 1); Some (13 # 1)])]
        (Some [CRow [Some (100 # 1)]; CRow [Some (110 # 1)];
               CRow [Some (120 # 1)]]).

(** A figure writer that always works and one that never does. *)
Definition savefig_ok : string -> list draw_op -> result unit :=
  fun _ _ => Ok tt.
Definition savefig_denied : string -> list draw_op -> result unit :=
  fun _ _ => Raise (Exn RuntimeError "Permission denied").

(** A table without a closing price. *)
Definition frame_no_close : frame :=
  Frame [1; 2] [("Open", [Some (10 # 1); Some (11 # 1)])] None.

(** The table of the sample once transformed; its volume values are plain
    numbers. *)
Definition sample_transformed : frame :=
  frame_set "MA5" (rolling_mean 5 ten_prices) sample_frame.

Definition sample_request : request :=
  Request "AAPL" (Date 2024 1 1) (Date 2024 7 15) "1d".

Definition weekly_request : request :=
  Request "AAPL" (Date 2024 1 1) (Date 2024 7 15) "1wk".

(** The interface of the sample once its fetch is dispatched. *)
Definition sample_loading_ui : ui :=
  Ui "aapl" "2024-01-01" "2024-07-15" "1d" true false false DISABLED
     "Loading AAPL 1d from 2024-01-01 to 2024-07-15…"
     [PlotLine "Close" false [1; 2] [Some (1 # 1); Some (2 # 1)]] [].

(** Providers that fail in the three ways, and one that answers. *)
Definition provider_raises : provider :=
  fun _ => Raises (Exn ProviderFailure "connection reset").
Definition provider_none : provider := fun _ => ReturnsNone.
Definition provider_empty : provider := fun _ => ReturnsTable empty_frame.
Definition provider_sample : provider := fun _ => ReturnsTable sample_frame.

(** * Properties *)

(** ** The rolling mean *)

Module RollingFacts.

Lemma st_eq_refl s : st_eq s s.
Proof. split; reflexivity. Qed.

Lemma st_eq_trans s t r : st_eq s t -> st_eq t r -> st_eq s r.
Proof.
  intros [H1 H2] [H3 H4]. split; [congruence | now rewrite H2].
Qed.

Lemma count_defined_app l1 l2 :
  count_defined (l1 ++ l2)%list = count_defined l1 + count_defined l2.
Proof.
  induction l1 as [|[x|] l1 IH]; cbn [count_defined app]; lia.
Qed.

Lemma total_app l1 l2 :
  (total (l1 ++ l2)%list == total l1 + total l2)%Q.
Proof.
  induction l1 as [|[x|] l1 IH]; cbn [total app].
  - ring.
  - rewrite IH. ring.
  - exact IH.
Qed.

Lemma count_defined_bounds l :
  0 <= count_defined l <= Z.of_nat (List.length l).
Proof.
  induction l as [|[x|] l IH]; cbn [List.length count_defined]; lia.
Qed.

Lemma slice_split values a m b :
  (a <= m)%nat -> (m <= b)%nat ->
  slice values a b = (slice values a m ++ slice values m b)%list.
Proof.
  intros Ham Hmb. unfold slice.
  replace (b - a)%nat with ((m - a) + (b - m))%nat by lia.
  rewrite seq_app, map_app.
  replace (a + (m - a))%nat with m by lia.
  replace (m - a + (b - m) - (m - a))%nat with (b - m)%nat by lia.
  reflexivity.
Qed.

Lemma slice_length values a b : List.length (slice values a b) = (b - a)%nat.
Proof. unfold slice. now rewrite length_map, length_seq. Qed.

Lemma over_range_add values a b st :
  st_eq (over_range add_mean values a b st)
        (RollState (nobs st + count_defined (slice values a b))
                   (sum_x st + total (slice values a b))).
Proof.
  unfold over_range, slice.
  generalize (seq a (b - a)) as js. intros js. revert st.
  induction js as [|j js IH]; intros st;
    cbn [fold_left map count_defined total].
  - split; cbn [nobs sum_x]; [lia | ring].
  - eapply st_eq_trans; [apply IH|].
    destruct (value_at values j) as [x|]; cbn [add_mean count_defined total].
    + split; cbn [nobs sum_x]; [lia | ring].
    + apply st_eq_refl.
Qed.

Lemma over_range_remove values a b st :
  st_eq (over_range remove_mean values a b st)
        (RollState (nobs st - count_defined (slice values a b))
                   (sum_x st - total (slice values a b))).
Proof.
  unfold over_range, slice.
  generalize (seq a (b - a)) as js. intros js. revert st.
  induction js as [|j js IH]; intros st;
    cbn [fold_left map count_defined total].
  - split; cbn [nobs sum_x]; [lia | ring].
  - eapply st_eq_trans; [apply IH|].
    destruct (value_at values j) as [x|]; cbn [remove_mean count_defined total].
    + split; cbn [nobs sum_x]; [lia | ring].
    + apply st_eq_refl.
Qed.

Lemma over_range_add_st_eq values a b s t :
  st_eq s t ->
  st_eq (over_range add_mean values a b s) (over_range add_mean values a b t).
Proof.
  intros [H1 H2].
  eapply st_eq_trans; [apply over_range_add|].
  destruct (over_range_add values a b t) as [H3 H4].
  split; simpl in *; [lia | rewrite H4, H2; reflexivity].
Qed.

Lemma calc_mean_st_eq minp s t :
  st_eq s t -> oq_eq (calc_mean minp s) (calc_mean minp t).
Proof.
  intros [H1 H2]. unfold calc_mean. rewrite H1.
  destruct ((minp <=? nobs t) && (0 <? nobs t)); simpl; [|exact I].
  now rewrite H2.
Qed.

(** One step of the loop leaves the accumulator of the new window, whether
    it was rebuilt or slid. *)
Lemma step_state values w i st :
  (i = 0%nat \/ st_eq st (window_state values (win_start w (i - 1)) (win_end (i - 1)))) ->
  st_eq (if (i =? 0)%nat || (win_end (i - 1) <=? win_start w i)%nat
         then over_range add_mean values (win_start w i) (win_end i) roll_init
         else over_range add_mean values (win_end (i - 1)) (win_end i)
                (over_range remove_mean values (win_start w (i - 1))
                   (win_start w i) st))
        (window_state values (win_start w i) (win_end i)).
Proof.
  intros Hst.
  destruct ((i =? 0)%nat || (win_end (i - 1) <=? win_start w i)%nat) eqn:Hc.
  - eapply st_eq_trans; [apply over_range_add|].
    unfold window_state; split; simpl; [lia | ring].
  - apply orb_false_iff in Hc. destruct Hc as [Hi Hw].
    apply Nat.eqb_neq in Hi. apply Nat.leb_gt in Hw.
    destruct Hst as [Hst|[Hn Hs]]; [contradiction|].
    unfold win_start, win_end in *.
    eapply st_eq_trans; [apply over_range_add|].
    destruct (over_range_remove values (i - 1 + 1 - w) (i + 1 - w) st)
      as [Hrn Hrs].
    assert (Hsplit1 :
      slice values (i - 1 + 1 - w) (i - 1 + 1)
      = (slice values (i - 1 + 1 - w) (i + 1 - w)
         ++ slice values (i + 1 - w) (i - 1 + 1))%list)
      by (apply slice_split; lia).
    assert (Hsplit2 :
      slice values (i + 1 - w) (i + 1)
      = (slice values (i + 1 - w) (i - 1 + 1)
         ++ slice values (i - 1 + 1) (i + 1))%list)
      by (apply slice_split; lia).
    unfold window_state in *. simpl in Hn, Hs.
    rewrite Hsplit1, count_defined_app in Hn.
    rewrite Hsplit1, total_app in Hs.
    split; simpl.
    + rewrite Hrn, Hsplit2, count_defined_app. simpl. lia.
    + rewrite Hrs, Hsplit2, total_app. simpl. rewrite Hs. ring.
Qed.

Lemma roll_from_length values w minp i todo st :
  List.length (roll_from values w minp i todo st) = todo.
Proof.
  revert i st. induction todo as [|k IH]; intros i st; simpl; [reflexivity|].
  now rewrite IH.
Qed.

(** Every output of the loop is [calc_mean] of the accumulator of its own
    window. *)
Lemma roll_from_nth values w minp todo : forall i st k,
  (i = 0%nat \/ st_eq st (window_state values (win_start w (i - 1)) (win_end (i - 1)))) ->
  (k < todo)%nat ->
  exists q,
    nth_error (roll_from values w minp i todo st) k = Some q
    /\ oq_eq q (calc_mean minp
                  (window_state values (win_start w (i + k)) (win_end (i + k)))).
Proof.
  induction todo as [|n IH]; intros i st k Hst Hk; [lia|].
  pose proof (step_state values w i st Hst) as Hstep.
  cbn [roll_from].
  destruct k as [|k].
  - eexists. split; [reflexivity|].
    rewrite Nat.add_0_r. now apply calc_mean_st_eq.
  - cbn [nth_error].
    replace (i + S k)%nat with (S i + k)%nat by lia.
    apply IH; [|lia].
    right. replace (S i - 1)%nat with i by lia. exact Hstep.
Qed.

Lemma sum_defined_total l :
  match sum_defined l with
  | Some s => count_defined l = Z.of_nat (List.length l) /\ (s == total l)%Q
  | None => count_defined l < Z.of_nat (List.length l)
  end.
Proof.
  induction l as [|[x|] l IH].
  - simpl. split; [reflexivity | reflexivity].
  - cbn [sum_defined]. destruct (sum_defined l) as [s|]; cbn [option_map].
    + destruct IH as [IH1 IH2]. split.
      * cbn [List.length count_defined]. lia.
      * simpl. now rewrite IH2.
    + cbn [List.length count_defined]. lia.
  - cbn [sum_defined]. pose proof (count_defined_bounds l).
    cbn [List.length count_defined]. lia.
Qed.

Lemma slice_window w i values :
  (w <= i + 1)%nat ->
  slice values (win_start w i) (win_end i) = window_prices w i values.
Proof.
  intros H. unfold slice, window_prices, win_start, win_end, value_at.
  now replace (i + 1 - (i + 1 - w))%nat with w by lia.
Qed.

(** The loop computes the trailing mean of the specification. *)
Lemma rolling_mean_spec w values i :
  (1 <= w)%nat -> (i < List.length values)%nat ->
  exists q,
    nth_error (rolling_mean w values) i = Some q
    /\ oq_eq q (trailing_mean w i values).
Proof.
  intros Hw Hi. unfold rolling_mean.
  destruct (roll_from_nth values w (Z.of_nat w) (List.length values) 0
              roll_init i (or_introl eq_refl) Hi) as [q [Hq Heq]].
  exists q. split; [exact Hq|].
  simpl Nat.add in Heq. unfold trailing_mean.
  destruct (i + 1 <? w)%nat eqn:Hlt.
  - apply Nat.ltb_lt in Hlt.
    unfold calc_mean, window_state in Heq. simpl nobs in Heq.
    pose proof (count_defined_bounds (slice values (win_start w i) (win_end i))) as Hb.
    rewrite slice_length in Hb. unfold win_start, win_end in Hb.
    replace (Z.of_nat w <=? _) with false in Heq
      by (symmetry; apply Z.leb_gt; unfold win_start, win_end; lia).
    exact Heq.
  - apply Nat.ltb_ge in Hlt.
    unfold window_state in Heq.
    rewrite slice_window in Heq by exact Hlt.
    unfold arithmetic_mean.
    pose proof (sum_defined_total (window_prices w i values)) as Hs.
    assert (Hlen : List.length (window_prices w i values) = w)
      by (unfold window_prices; now rewrite length_map, length_seq).
    rewrite Hlen in *.
    unfold calc_mean in Heq. cbn [nobs sum_x] in Heq.
    destruct (sum_defined (window_prices w i values)) as [s|]; cbn [option_map].
    + destruct Hs as [Hc Ht]. rewrite Hc in Heq.
      replace ((Z.of_nat w <=? Z.of_nat w) && (0 <? Z.of_nat w)) with true in Heq
        by (symmetry; apply andb_true_iff; split;
            [apply Z.leb_le | apply Z.ltb_lt]; lia).
      destruct q as [q|]; simpl in Heq |- *; [|exact Heq].
      rewrite Heq, Ht. reflexivity.
    + replace (Z.of_nat w <=? _) with false in Heq
        by (symmetry; apply Z.leb_gt; lia).
      exact Heq.
Qed.

Lemma rolling_mean_length w values :
  List.length (rolling_mean w values) = List.length values.
Proof. apply roll_from_length. Qed.

End RollingFacts.

(** ** Columns of a table *)

Lemma col_get_set_same name v cols :
  col_get name (col_set name v cols) = Some v.
Proof.
  induction cols as [|[k x] r IH]; cbn [col_set col_get].
  - now rewrite String.eqb_refl.
  - destruct (String.eqb k name) eqn:E; cbn [col_get]; rewrite E; auto.
Qed.

Lemma col_get_set_other name other v cols :
  other <> name -> col_get other (col_set name v cols) = col_get other cols.
Proof.
  intros Hne.
  induction cols as [|[k x] r IH]; cbn [col_set col_get].
  - destruct (String.eqb name other) eqn:E; [|reflexivity].
    apply String.eqb_eq in E. congruence.
  - destruct (String.eqb k name) eqn:E; cbn [col_get].
    + apply String.eqb_eq in E. subst k.
      destruct (String.eqb name other) eqn:E2; [|reflexivity].
      apply String.eqb_eq in E2. congruence.
    + now rewrite IH.
Qed.

Lemma frame_get_set_same name v df :
  frame_get name (frame_set name v df) = Ok v.
Proof.
  unfold frame_get, frame_set. cbn [columns]. now rewrite col_get_set_same.
Qed.

Lemma frame_get_set_other name other v df :
  other <> name -> frame_get other (frame_set name v df) = frame_get other df.
Proof.
  intros H. unfold frame_get, frame_set. cbn [columns].
  now rewrite col_get_set_other.
Qed.

Lemma price_column_cases df :
  price_column df = "Adj Close" \/ price_column df = "Close".
Proof. unfold price_column. destruct (has_column _ df); auto. Qed.

Lemma add_ma_off name w pc acc : add_ma false name w pc acc = Ok acc.
Proof. reflexivity. Qed.

Lemma add_ma_on name w pc acc :
  add_ma true name w pc acc
  = match frame_get pc (fst acc) with
    | Ok c => Ok (frame_set name (rolling_mean w c) (fst acc),
                  (snd acc ++ [name])%list)
    | Raise e => Raise e
    end.
Proof. unfold add_ma, bind. now destruct (frame_get pc (fst acc)). Qed.

(** One moving-average step keeps the price column and the columns of other
    names, and stores the rolling mean under its own name when switched
    on. *)
Lemma add_ma_step en name w pc acc p :
  pc <> name -> frame_get pc (fst acc) = Ok p ->
  exists acc',
    add_ma en name w pc acc = Ok acc'
    /\ frame_get pc (fst acc') = Ok p
    /\ (en = true -> frame_get name (fst acc') = Ok (rolling_mean w p))
    /\ (forall other, other <> name ->
          frame_get other (fst acc') = frame_get other (fst acc))
    /\ index (fst acc') = index (fst acc)
    /\ volume (fst acc') = volume (fst acc)
    /\ snd acc' = (snd acc ++ (if en then [name] else []))%list.
Proof.
  intros Hne Hp. destruct en.
  - rewrite add_ma_on, Hp. eexists. split; [reflexivity|]. cbn [fst snd].
    repeat split.
    + rewrite frame_get_set_other; auto.
    + intros _. apply frame_get_set_same.
    + intros other Ho. now apply frame_get_set_other.
  - exists acc. rewrite add_ma_off, app_nil_r. repeat split; auto.
    discriminate.
Qed.

(** Without a price column the first enabled step raises [KeyError]. *)
Lemma add_ma_no_price name w pc df l e :
  frame_get pc df = Raise e ->
  add_ma true name w pc (df, l) = Raise e.
Proof. intros H. rewrite add_ma_on. cbn [fst]. now rewrite H. Qed.

Ltac catalog_case H :=
  repeat (destruct H as [H|H]; [inversion H; subst; clear H|]);
  try contradiction.

(** What [transform] returns on a table with a price column. *)
Lemma transform_columns u df p :
  frame_get (price_column df) df = Ok p ->
  exists df' cols,
    transform u df = Ok (df', price_column df, cols)
    /\ frame_get (price_column df) df' = Ok p
    /\ index df' = index df
    /\ volume df' = volume df
    /\ cols = ((if ma5_var u then ["MA5"] else [])
               ++ (if ma20_var u then ["MA20"] else [])
               ++ (if ma50_var u then ["MA50"] else []))%list
    /\ forall name w, In (name, w) ma_catalog -> ma_enabled u name = true ->
         frame_get name df' = Ok (rolling_mean w p).
Proof.
  intros Hp.
  assert (Hpc : price_column df <> "MA5" /\ price_column df <> "MA20"
                /\ price_column df <> "MA50")
    by (destruct (price_column_cases df) as [E|E]; rewrite E;
        repeat split; discriminate).
  destruct Hpc as [N5 [N20 N50]].
  unfold transform.
  destruct (add_ma_step (ma5_var u) "MA5" 5 (price_column df) (df, []) p N5 Hp)
    as [a1 [E1 [P1 [S1 [O1 [I1 [V1 C1]]]]]]].
  destruct (add_ma_step (ma20_var u) "MA20" 20 (price_column df) a1 p N20 P1)
    as [a2 [E2 [P2 [S2 [O2 [I2 [V2 C2]]]]]]].
  destruct (add_ma_step (ma50_var u) "MA50" 50 (price_column df) a2 p N50 P2)
    as [a3 [E3 [P3 [S3 [O3 [I3 [V3 C3]]]]]]].
  rewrite E1. cbn [bind]. rewrite E2. cbn [bind]. rewrite E3. cbn [bind].
  exists (fst a3), (snd a3). repeat split.
  - exact P3.
  - now rewrite I3, I2, I1.
  - now rewrite V3, V2, V1.
  - rewrite C3, C2, C1. cbn [snd]. now rewrite app_assoc.
  - intros name w Hin Hen. unfold ma_catalog in Hin. cbn [In] in Hin.
    unfold ma_enabled in Hen.
    catalog_case Hin; cbn in Hen.
    + rewrite O3, O2 by discriminate. auto.
    + rewrite O3 by discriminate. auto.
    + auto.
Qed.

(** A successful [transform] had a price column to work on, unless no
    toggle was on. *)
Lemma transform_ok_price u df df' pc cols name w :
  transform u df = Ok (df', pc, cols) ->
  In (name, w) ma_catalog -> ma_enabled u name = true ->
  exists p, frame_get (price_column df) df = Ok p.
Proof.
  intros H Hin Hen.
  destruct (frame_get (price_column df) df) as [p|e] eqn:Hp; [now exists p|].
  exfalso. unfold ma_catalog in Hin. cbn [In] in Hin.
  unfold ma_enabled in Hen. unfold transform in H.
  catalog_case Hin; cbn in Hen.
  - rewrite Hen in H. rewrite (add_ma_no_price _ _ _ _ _ e Hp) in H. discriminate.
  - destruct (ma5_var u).
    + rewrite (add_ma_no_price _ _ _ _ _ e Hp) in H. discriminate.
    + rewrite add_ma_off in H. cbn [bind] in H. rewrite Hen in H.
      rewrite (add_ma_no_price _ _ _ _ _ e Hp) in H. discriminate.
  - destruct (ma5_var u).
    + rewrite (add_ma_no_price _ _ _ _ _ e Hp) in H. discriminate.
    + rewrite add_ma_off in H. cbn [bind] in H. destruct (ma20_var u).
      * rewrite (add_ma_no_price _ _ _ _ _ e Hp) in H. discriminate.
      * rewrite add_ma_off in H. cbn [bind] in H. rewrite Hen in H.
        rewrite (add_ma_no_price _ _ _ _ _ e Hp) in H. discriminate.
Qed.

Example ten_prices_ma5 :
  exists q,
    rolling_mean 5 ten_prices
    = ([None; None; None; None; Some q]
       ++ skipn 5 (rolling_mean 5 ten_prices))%list
    /\ (q == (10 + 11 + 13 + 12 + 14) / 5)%Q.
Proof. eexists. split; [vm_compute; reflexivity | vm_compute; reflexivity]. Qed.

(** C1. For every moving average of the catalog whose toggle is on, the
    column stored under its name by the transform has the length of the
    price column; at a position [i] with [i + 1 < w] its value is the
    undefined value [None] (not a number, so not zero), and at every other
    position it is the arithmetic mean of the [w] prices at positions
    [i-w+1 .. i].  A price column shorter than [w] therefore gets an
    all-undefined column. *)
Theorem moving_average_column :
  forall (u : ui) (df df' : frame) (pc : string) (cols : list string)
         (name : string) (w : nat),
    transform u df = Ok (df', pc, cols) ->
    In (name, w) ma_catalog ->
    ma_enabled u name = true ->
    exists prices col,
      frame_get pc df = Ok prices
      /\ frame_get name df' = Ok col
      /\ In name cols
      /\ List.length col = List.length prices
      /\ forall i, (i < List.length prices)%nat ->
           exists v,
             nth_error col i = Some v
             /\ ((i + 1 < w)%nat -> v = None /\ v <> Some (0 # 1))
             /\ ((w <= i + 1)%nat ->
                   oq_eq v (arithmetic_mean (window_prices w i prices))).
Proof.
  intros u df df' pc cols name w H Hin Hen.
  destruct (transform_ok_price _ _ _ _ _ _ _ H Hin Hen) as [p Hp].
  destruct (transform_columns u df p Hp)
    as [df2 [cols2 [E [P2 [I2 [V2 [C2 M2]]]]]]].
  rewrite E in H. inversion H; subst df2 pc cols2; clear H.
  exists p, (rolling_mean w p).
  split; [exact Hp|]. split; [now apply M2|].
  assert (Hw : (1 <= w)%nat)
    by (unfold ma_catalog in Hin; cbn [In] in Hin; catalog_case Hin; lia).
  split.
  { rewrite <- H3. unfold ma_catalog in Hin. cbn [In] in Hin.
    unfold ma_enabled in Hen.
    catalog_case Hin; cbn in Hen; rewrite Hen; rewrite !in_app_iff;
      cbn [In]; auto. }
  split; [apply RollingFacts.rolling_mean_length|].
  intros i Hi.
  destruct (RollingFacts.rolling_mean_spec w p i Hw Hi) as [v [Hv Hs]].
  exists v. split; [exact Hv|]. unfold trailing_mean in Hs. split.
  - intros Hlt. apply Nat.ltb_lt in Hlt. rewrite Hlt in Hs.
    destruct v; [contradiction|]. split; [reflexivity | discriminate].
  - intros Hge. apply Nat.ltb_ge in Hge. now rewrite Hge in Hs.
Qed.

(** ** Text of dates *)

Module TextFacts.

Lemma all_space_strip s : all_space s = true -> strip s = "".
Proof.
  unfold strip. induction s as [|c r IH]; cbn [all_space lstrip]; auto.
  intros H. apply andb_true_iff in H. destruct H as [Hc Hr].
  rewrite Hc. auto.
Qed.

Lemma strip_empty_all_space s : strip s = "" -> all_space s = true.
Proof.
  unfold strip. induction s as [|c r IH]; cbn [all_space lstrip]; auto.
  destruct (is_space c) eqn:Hc; cbn [andb]; auto.
  cbn [rstrip]. rewrite Hc. destruct (rstrip r); discriminate.
Qed.

Lemma digit_not_space c : is_digit c = true -> is_space c = false.
Proof.
  unfold is_digit, is_space. intros H.
  apply andb_true_iff in H. destruct H as [H1 H2].
  apply N.leb_le in H1. apply N.leb_le in H2.
  repeat rewrite orb_false_iff. repeat split.
  - apply andb_false_iff. right. apply N.leb_gt. lia.
  - apply andb_false_iff. right. apply N.leb_gt. lia.
  - apply N.eqb_neq. lia.
  - apply N.eqb_neq. lia.
Qed.

Lemma digit_not_sep c : is_digit c = true -> Ascii.eqb c "-" = false.
Proof.
  intros H. destruct (Ascii.eqb c "-") eqn:E; [|reflexivity].
  apply Ascii.eqb_eq in E. subst c. discriminate.
Qed.

Lemma all_digits_no_sep s : all_digits s = true -> no_sep "-" s = true.
Proof.
  induction s as [|c r IH]; cbn [all_digits no_sep]; auto.
  intros H. apply andb_true_iff in H. destruct H as [Hc Hr].
  now rewrite (digit_not_sep c Hc), IH.
Qed.

Lemma append_assoc a b c : (a ++ b) ++ c = a ++ (b ++ c).
Proof. induction a as [|x a IH]; cbn [append]; congruence. Qed.

Lemma all_digits_app a b :
  all_digits (a ++ b) = all_digits a && all_digits b.
Proof.
  induction a as [|c r IH]; cbn [append all_digits]; auto.
  now rewrite IH, andb_assoc.
Qed.

(** Text that ends in a digit keeps its tail under [rstrip]. *)
Lemma rstrip_digits_end a b :
  digits_only b = true -> rstrip (a ++ b) = a ++ b.
Proof.
  intros Hb. unfold digits_only in Hb. apply andb_true_iff in Hb.
  destruct Hb as [Hne Hd].
  assert (Hb : rstrip b = b /\ b <> "").
  { clear a. destruct b as [|c0 r0]; [discriminate|]. clear Hne.
    revert c0 Hd. induction r0 as [|c1 r1 IH]; intros c0 Hd.
    - cbn [all_digits] in Hd. rewrite andb_true_r in Hd.
      cbn [rstrip]. rewrite (digit_not_space c0 Hd). split; [auto|discriminate].
    - cbn [all_digits] in Hd. apply andb_true_iff in Hd. destruct Hd as [H0 H1].
      destruct (IH c1 H1) as [E N]. split; [|discriminate].
      change (rstrip (String c0 (String c1 r1)))
        with (match rstrip (String c1 r1) with
              | EmptyString =>
                  if is_space c0 then EmptyString else String c0 EmptyString
              | r' => String c0 r'
              end).
      rewrite E. reflexivity. }
  destruct Hb as [E N].
  induction a as [|c r IH]; cbn [append]; auto.
  cbn [rstrip]. rewrite IH.
  destruct (r ++ b) eqn:Hrb; auto.
  destruct r; cbn [append] in Hrb; [contradiction | discriminate].
Qed.

Lemma lstrip_digit_start c r :
  is_digit c = true -> lstrip (String c r) = String c r.
Proof. intros H. cbn [lstrip]. now rewrite (digit_not_space c H). Qed.

Lemma split_no_sep sep s : no_sep sep s = true -> split sep s = [s].
Proof.
  induction s as [|c r IH]; cbn [no_sep split]; auto.
  intros H. apply andb_true_iff in H. destruct H as [Hc Hr].
  apply negb_true_iff in Hc. now rewrite Hc, IH.
Qed.

Lemma split_app_sep sep a r :
  no_sep sep a = true ->
  split sep (a ++ String sep r) = a :: split sep r.
Proof.
  induction a as [|c a IH]; cbn [no_sep append split].
  - intros _. now rewrite Ascii.eqb_refl.
  - intros H. apply andb_true_iff in H. destruct H as [Hc Hr].
    apply negb_true_iff in Hc. now rewrite Hc, IH.
Qed.

(** [needle in (a + needle + b)]. *)
Lemma prefix_app a b : String.prefix a (a ++ b) = true.
Proof.
  induction a as [|c a IH]; cbn [append String.prefix].
  - now destruct b.
  - destruct (ascii_dec c c); [exact IH | contradiction].
Qed.

Lemma contains_app a needle b : contains needle (a ++ needle ++ b) = true.
Proof.
  induction a as [|c a IH]; cbn [append].
  - destruct (needle ++ b) eqn:E; cbn [contains];
      rewrite <- E, prefix_app; reflexivity.
  - cbn [contains]. rewrite IH. now destruct (String.prefix needle _).
Qed.

Lemma invalid_date_msg_contains s :
  contains s (invalid_date_msg s) = true.
Proof. unfold invalid_date_msg. apply contains_app. Qed.

Lemma count_from_in k : forall a n,
  a <= n < a + Z.of_nat k -> In n (count_from a k).
Proof.
  induction k as [|k IH]; intros a n H; [lia|].
  cbn [count_from In].
  destruct (Z.eq_dec a n) as [E|E]; [now left|].
  right. apply IH. lia.
Qed.

Lemma upto_in k n : 0 <= n < k -> In n (upto k).
Proof. intros H. apply count_from_in. lia. Qed.

Lemma fmt4_table : forallb (fmt_ok 4) (upto 10000) = true.
Proof. vm_compute. reflexivity. Qed.

Lemma fmt2_table : forallb (fmt_ok 2) (upto 100) = true.
Proof. vm_compute. reflexivity. Qed.

Lemma fmt_ok_spec w n :
  fmt_ok w n = true ->
  digits_only (fmt0 w n) = true /\ py_int (fmt0 w n) = Some n.
Proof.
  unfold fmt_ok. intros H. apply andb_true_iff in H. destruct H as [H1 H2].
  split; [exact H1|].
  destruct (py_int (fmt0 w n)) as [v|]; [|discriminate].
  apply Z.eqb_eq in H2. now subst.
Qed.

Lemma fmt4_ok n :
  0 <= n <= 9999 ->
  digits_only (fmt0 4 n) = true /\ py_int (fmt0 4 n) = Some n.
Proof.
  intros H. apply fmt_ok_spec.
  pose proof fmt4_table as T. rewrite forallb_forall in T.
  apply T, upto_in. lia.
Qed.

Lemma fmt2_ok n :
  0 <= n <= 99 ->
  digits_only (fmt0 2 n) = true /\ py_int (fmt0 2 n) = Some n.
Proof.
  intros H. apply fmt_ok_spec.
  pose proof fmt2_table as T. rewrite forallb_forall in T.
  apply T, upto_in. lia.
Qed.

Lemma digits_only_all s : digits_only s = true -> all_digits s = true.
Proof. unfold digits_only. intros H. now apply andb_true_iff in H. Qed.

Lemma valid_date_bounds d :
  valid_date d = true ->
  1 <= year d <= 9999 /\ 1 <= month d <= 12 /\ 1 <= day d <= 31.
Proof.
  unfold valid_date, MINYEAR, MAXYEAR. intros H.
  repeat (apply andb_true_iff in H; destruct H as [H ?]).
  repeat match goal with
         | X : (_ <=? _) = true |- _ => apply Z.leb_le in X
         end.
  assert (Hm : days_in_month (year d) (month d) <= 31).
  { unfold days_in_month.
    destruct ((month d =? 2) && is_leap (year d)); [lia|].
    assert (Hc : month d = 1 \/ month d = 2 \/ month d = 3 \/ month d = 4
                 \/ month d = 5 \/ month d = 6 \/ month d = 7 \/ month d = 8
                 \/ month d = 9 \/ month d = 10 \/ month d = 11
                 \/ month d = 12) by lia.
    repeat (destruct Hc as [Hc|Hc]; [rewrite Hc; vm_compute; discriminate|]).
    rewrite Hc; vm_compute; discriminate. }
  lia.
Qed.

(** The ISO text of a date reads back as its three numbers. *)
Lemma isoformat_parts d :
  valid_date d = true ->
  strip (isoformat d) = isoformat d
  /\ isoformat d <> ""
  /\ map py_int (split "-" (isoformat d))
     = [Some (year d); Some (month d); Some (day d)].
Proof.
  intros Hv. destruct (valid_date_bounds d Hv) as [Hy [Hm Hd]].
  destruct (fmt4_ok (year d)) as [Y1 Y2]; [lia|].
  destruct (fmt2_ok (month d)) as [M1 M2]; [lia|].
  destruct (fmt2_ok (day d)) as [D1 D2]; [lia|].
  unfold isoformat.
  set (a := fmt0 4 (year d)) in *.
  set (b := fmt0 2 (month d)) in *.
  set (c := fmt0 2 (day d)) in *.
  assert (Ha : exists c0 r0, a = String c0 r0 /\ is_digit c0 = true).
  { unfold digits_only in Y1. destruct a as [|c0 r0]; [discriminate|].
    cbn [String.eqb negb andb all_digits] in Y1.
    apply andb_true_iff in Y1. destruct Y1. eauto. }
  destruct Ha as [c0 [r0 [Ea Hc0]]].
  repeat split.
  - unfold strip.
    replace (lstrip (a ++ "-" ++ b ++ "-" ++ c)) with (a ++ "-" ++ b ++ "-" ++ c)
      by (rewrite Ea; cbn [append]; now rewrite lstrip_digit_start).
    replace (a ++ "-" ++ b ++ "-" ++ c) with ((a ++ "-" ++ b ++ "-") ++ c)
      by (rewrite !append_assoc; reflexivity).
    now apply rstrip_digits_end.
  - rewrite Ea. discriminate.
  - change (a ++ "-" ++ b ++ "-" ++ c)
      with (a ++ String "-" (b ++ String "-" c)).
    rewrite split_app_sep by (apply all_digits_no_sep, digits_only_all, Y1).
    rewrite split_app_sep by (apply all_digits_no_sep, digits_only_all, M1).
    rewrite split_no_sep by (apply all_digits_no_sep, digits_only_all, D1).
    cbn [map]. now rewrite Y2, M2, D2.
Qed.

End TextFacts.

(** ** The calendar *)

Module CalendarFacts.

Lemma div_mod_parts a b q r :
  0 <= r < b -> a = b * q + r -> a / b = q /\ a mod b = r.
Proof.
  intros Hr Ha. split.
  - symmetry. apply (Z.div_unique_pos a b q r); assumption.
  - symmetry. apply (Z.mod_unique_pos a b q r); assumption.
Qed.

(** [ord2ymd] on an ordinal given by its 400-, 100-, 4- and 1-year parts
    and a position inside the year short of a 366th day. *)
Lemma ord2ymd_parts q400 q100 q4 q1 k :
  0 <= q100 <= 3 -> 0 <= q4 <= 24 -> 0 <= q1 <= 3 -> 0 <= k <= 364 ->
  ord2ymd (146097 * q400 + 36524 * q100 + 1461 * q4 + 365 * q1 + k + 1)
  = let leap := (q1 =? 3) && (negb (q4 =? 24) || (q100 =? 3)) in
    Date (400 * q400 + 100 * q100 + 4 * q4 + q1 + 1)
         (fst (month_day leap k)) (snd (month_day leap k)).
Proof.
  intros H100 H4 H1 Hk.
  unfold ord2ymd, DI400Y, DI100Y, DI4Y. cbv zeta.
  replace (146097 * q400 + 36524 * q100 + 1461 * q4 + 365 * q1 + k + 1 - 1)
    with (146097 * q400 + (36524 * q100 + 1461 * q4 + 365 * q1 + k)) by ring.
  destruct (div_mod_parts
              (146097 * q400 + (36524 * q100 + 1461 * q4 + 365 * q1 + k))
              146097 q400 (36524 * q100 + 1461 * q4 + 365 * q1 + k))
    as [D400 M400]; [lia | ring |].
  rewrite !D400, !M400.
  destruct (div_mod_parts (36524 * q100 + 1461 * q4 + 365 * q1 + k)
              36524 q100 (1461 * q4 + 365 * q1 + k))
    as [D100 M100]; [lia | ring |].
  rewrite !D100, !M100.
  destruct (div_mod_parts (1461 * q4 + 365 * q1 + k) 1461 q4 (365 * q1 + k))
    as [D4 M4]; [lia | ring |].
  rewrite !D4, !M4.
  destruct (div_mod_parts (365 * q1 + k) 365 q1 k) as [D1 M1]; [lia | ring |].
  rewrite !D1, !M1.
  replace (q1 =? 4) with false by (symmetry; apply Z.eqb_neq; lia).
  replace (q100 =? 4) with false by (symmetry; apply Z.eqb_neq; lia).
  cbn [orb].
  replace (q400 * 400 + 1 + q100 * 100 + q4 * 4 + q1)
    with (400 * q400 + 100 * q100 + 4 * q4 + q1 + 1) by ring.
  unfold month_day, dbm_leap. cbv zeta.
  destruct (k <? _); reflexivity.
Qed.

(** The 366th day of a leap year: one of the two early exits. *)
Lemma ord2ymd_leap_end q400 q100 q4 :
  0 <= q100 <= 3 -> 0 <= q4 <= 24 -> (q4 <> 24 \/ q100 = 3) ->
  ord2ymd (146097 * q400 + 36524 * q100 + 1461 * q4 + 365 * 3 + 365 + 1)
  = Date (400 * q400 + 100 * q100 + 4 * q4 + 3 + 1) 12 31.
Proof.
  intros H100 H4 Hl.
  unfold ord2ymd, DI400Y, DI100Y, DI4Y. cbv zeta.
  replace (146097 * q400 + 36524 * q100 + 1461 * q4 + 365 * 3 + 365 + 1 - 1)
    with (146097 * q400 + (36524 * q100 + 1461 * q4 + 1460)) by ring.
  destruct (div_mod_parts
              (146097 * q400 + (36524 * q100 + 1461 * q4 + 1460))
              146097 q400 (36524 * q100 + 1461 * q4 + 1460))
    as [D400 M400]; [lia | ring |].
  rewrite !D400, !M400.
  destruct (Z.eq_dec q4 24) as [E24|N24].
  - assert (q100 = 3) by lia. subst q4 q100.
    change (36524 * 3 + 1461 * 24 + 1460) with 146096.
    change (146096 / 36524) with 4. change (146096 mod 36524) with 0.
    change (0 mod 1461) with 0. change (0 / 1461) with 0.
    change (0 / 365) with 0.
    change ((0 =? 4) || (4 =? 4)) with true. cbv iota. f_equal. lia.
  - destruct (div_mod_parts (36524 * q100 + 1461 * q4 + 1460)
                36524 q100 (1461 * q4 + 1460))
      as [D100 M100]; [lia | ring |].
    rewrite !D100, !M100.
    destruct (div_mod_parts (1461 * q4 + 1460) 1461 q4 1460)
      as [D4 M4]; [lia | ring |].
    rewrite !D4, !M4.
    change (1460 / 365) with 4. change (4 =? 4) with true.
    cbn [orb]. cbv iota. f_equal. lia.
Qed.

Lemma month_table : months_ok true && months_ok false = true.
Proof. vm_compute. reflexivity. Qed.

Lemma month_day_of leap m d :
  1 <= m <= 12 -> 1 <= d <= dim_leap leap m ->
  let k := dbm_leap leap m + d - 1 in
  month_day leap k = (m, d)
  /\ 0 <= k <= (if leap then 365 else 364)
  /\ (k = 365 -> m = 12 /\ d = 31).
Proof.
  intros Hm Hd k.
  assert (T : months_ok leap = true).
  { pose proof month_table as T. apply andb_true_iff in T.
    destruct leap; tauto. }
  unfold months_ok in T. rewrite forallb_forall in T.
  specialize (T m (TextFacts.count_from_in 12 1 m ltac:(lia))).
  unfold month_ok in T. rewrite forallb_forall in T.
  specialize (T d (TextFacts.count_from_in (Z.to_nat (dim_leap leap m)) 1 d
                     ltac:(lia))).
  cbv zeta in T. fold k in T.
  repeat (apply andb_true_iff in T; destruct T as [T ?]).
  apply Z.eqb_eq in T.
  repeat match goal with
         | X : (_ =? _) = true |- _ => apply Z.eqb_eq in X
         | X : (_ <=? _) = true |- _ => apply Z.leb_le in X
         end.
  split; [destruct (month_day leap k); cbn [fst snd] in *; congruence|].
  split; [lia|].
  intros E. rewrite E in *.
  match goal with
  | X : negb (365 =? 365) || _ = true |- _ =>
      cbn in X; apply andb_true_iff in X; destruct X as [X1 X2];
      apply Z.eqb_eq in X1; apply Z.eqb_eq in X2; auto
  end.
Qed.

(** A year, split the way [ord2ymd] splits an ordinal. *)
Lemma year_parts Y :
  1 <= Y ->
  exists q400 q100 q4 q1,
    0 <= q400 /\ 0 <= q100 <= 3 /\ 0 <= q4 <= 24 /\ 0 <= q1 <= 3
    /\ Y = 400 * q400 + 100 * q100 + 4 * q4 + q1 + 1
    /\ days_before_year Y
       = 146097 * q400 + 36524 * q100 + 1461 * q4 + 365 * q1
    /\ is_leap Y = (q1 =? 3) && (negb (q4 =? 24) || (q100 =? 3)).
Proof.
  intros HY.
  exists ((Y - 1) / 400), ((Y - 1) mod 400 / 100),
         ((Y - 1) mod 100 / 4), ((Y - 1) mod 4).
  assert (E4 : Y mod 4 = ((Y - 1) mod 4 + 1) mod 4)
    by (rewrite Zplus_mod_idemp_l; f_equal; lia).
  repeat split; try (Z.div_mod_to_equations; lia).
  - unfold days_before_year. cbv zeta. Z.div_mod_to_equations. lia.
  - unfold is_leap.
    assert (L4 : (Y mod 4 =? 0) = ((Y - 1) mod 4 =? 3)).
    { destruct ((Y - 1) mod 4 =? 3) eqn:E.
      - apply Z.eqb_eq in E. apply Z.eqb_eq. Z.div_mod_to_equations. lia.
      - apply Z.eqb_neq in E. apply Z.eqb_neq. Z.div_mod_to_equations. lia. }
    assert (L100 : (Y mod 100 =? 0)
                   = ((Y - 1) mod 4 =? 3) && ((Y - 1) mod 100 / 4 =? 24)).
    { destruct (Y mod 100 =? 0) eqn:E.
      - apply Z.eqb_eq in E. symmetry. apply andb_true_iff.
        split; apply Z.eqb_eq; Z.div_mod_to_equations; lia.
      - apply Z.eqb_neq in E. symmetry. apply andb_false_iff.
        destruct ((Y - 1) mod 4 =? 3) eqn:E1; [right | now left].
        apply Z.eqb_eq in E1. apply Z.eqb_neq.
        Z.div_mod_to_equations. lia. }
    assert (L400 : (Y mod 400 =? 0)
                   = (Y mod 100 =? 0) && ((Y - 1) mod 400 / 100 =? 3)).
    { destruct (Y mod 400 =? 0) eqn:E.
      - apply Z.eqb_eq in E. symmetry. apply andb_true_iff.
        split; apply Z.eqb_eq; Z.div_mod_to_equations; lia.
      - apply Z.eqb_neq in E. symmetry. apply andb_false_iff.
        destruct (Y mod 100 =? 0) eqn:E1; [right | now left].
        apply Z.eqb_eq in E1. apply Z.eqb_neq.
        Z.div_mod_to_equations. lia. }
    rewrite L400, L100, L4.
    destruct ((Y - 1) mod 4 =? 3), ((Y - 1) mod 100 / 4 =? 24),
             ((Y - 1) mod 400 / 100 =? 3); reflexivity.
Qed.

Lemma valid_date_fields d :
  valid_date d = true ->
  1 <= year d <= 9999 /\ 1 <= month d <= 12
  /\ 1 <= day d <= dim_leap (is_leap (year d)) (month d).
Proof.
  unfold valid_date, MINYEAR, MAXYEAR. intros H.
  repeat (apply andb_true_iff in H; destruct H as [H ?]).
  repeat match goal with
         | X : (_ <=? _) = true |- _ => apply Z.leb_le in X
         end.
  unfold days_in_month in *. unfold dim_leap. lia.
Qed.

(** From a date to its ordinal and back. *)
Lemma ord2ymd_toordinal d : valid_date d = true -> ord2ymd (toordinal d) = d.
Proof.
  intros Hv. destruct (valid_date_fields d Hv) as [Hy [Hm Hd]].
  destruct d as [Y m dd]. cbn [year month day] in *.
  destruct (year_parts Y ltac:(lia))
    as [q400 [q100 [q4 [q1 [P400 [P100 [P4 [P1 [EY [Edby Eleap]]]]]]]]]].
  destruct (month_day_of (is_leap Y) m dd Hm Hd) as [Hmd [Hk Hlast]].
  cbv zeta in Hmd, Hk, Hlast.
  unfold toordinal, ymd2ord. cbn [year month day].
  change (days_before_month Y m) with (dbm_leap (is_leap Y) m).
  set (k := dbm_leap (is_leap Y) m + dd - 1) in *.
  replace (days_before_year Y + dbm_leap (is_leap Y) m + dd)
    with (146097 * q400 + 36524 * q100 + 1461 * q4 + 365 * q1 + k + 1)
    by (rewrite Edby; unfold k; ring).
  destruct (Z.eq_dec k 365) as [E365|N365].
  - destruct (Hlast E365) as [-> ->].
    assert (Hleap : is_leap Y = true)
      by (destruct (is_leap Y); [reflexivity | lia]).
    rewrite Eleap in Hleap. apply andb_true_iff in Hleap.
    destruct Hleap as [L1 L2]. apply Z.eqb_eq in L1. subst q1.
    apply orb_true_iff in L2.
    rewrite E365.
    rewrite ord2ymd_leap_end; try assumption.
    + f_equal. lia.
    + destruct L2 as [L2|L2].
      * left. apply negb_true_iff in L2. now apply Z.eqb_neq in L2.
      * right. now apply Z.eqb_eq in L2.
  - rewrite ord2ymd_parts; try assumption.
    + cbv zeta. rewrite <- Eleap, Hmd. cbn [fst snd]. f_equal. lia.
    + destruct (is_leap Y); lia.
Qed.

Lemma days_before_year_succ y :
  days_before_year (y + 1)
  = days_before_year y + (if is_leap y then 366 else 365).
Proof.
  unfold days_before_year, is_leap. cbv zeta.
  replace (y + 1 - 1) with y by ring.
  destruct (y mod 4 =? 0) eqn:E4; cbn [andb].
  - apply Z.eqb_eq in E4.
    destruct (y mod 100 =? 0) eqn:E100; cbn [negb orb].
    + apply Z.eqb_eq in E100.
      destruct (y mod 400 =? 0) eqn:E400.
      * apply Z.eqb_eq in E400. Z.div_mod_to_equations. lia.
      * apply Z.eqb_neq in E400. Z.div_mod_to_equations. lia.
    + apply Z.eqb_neq in E100. Z.div_mod_to_equations. lia.
  - apply Z.eqb_neq in E4. Z.div_mod_to_equations. lia.
Qed.

Lemma month_cases m :
  1 <= m <= 12 ->
  m = 1 \/ m = 2 \/ m = 3 \/ m = 4 \/ m = 5 \/ m = 6 \/ m = 7 \/ m = 8
  \/ m = 9 \/ m = 10 \/ m = 11 \/ m = 12.
Proof. lia. Qed.

Ltac each_month H :=
  repeat (destruct H as [H|H]; [subst|]); [..|subst].

(** Month lengths are at least 28 days, and the table of days before a
    month is the running sum of the month lengths. *)
Lemma dim_leap_lower leap m : 1 <= m <= 12 -> 28 <= dim_leap leap m.
Proof.
  intros H. apply month_cases in H.
  each_month H; destruct leap; vm_compute; discriminate.
Qed.

Lemma dbm_leap_succ leap m :
  1 <= m <= 11 -> dbm_leap leap (m + 1) = dbm_leap leap m + dim_leap leap m.
Proof.
  intros H.
  assert (Hc : m = 1 \/ m = 2 \/ m = 3 \/ m = 4 \/ m = 5 \/ m = 6 \/ m = 7
               \/ m = 8 \/ m = 9 \/ m = 10 \/ m = 11) by lia.
  each_month Hc; destruct leap; reflexivity.
Qed.

Lemma dbm_leap_december leap :
  dbm_leap leap 12 + dim_leap leap 12 = (if leap then 366 else 365).
Proof. destruct leap; reflexivity. Qed.

Lemma dim_leap_december_inv leap m :
  1 <= m <= 12 -> ~ m < 12 -> m = 12 /\ dim_leap leap m = 31.
Proof. intros H1 H2. assert (m = 12) by lia. subst. now destruct leap. Qed.

(** The next day is a date again, up to the last one. *)
Lemma valid_next_day d :
  valid_date d = true -> d <> date_max -> valid_date (next_day d) = true.
Proof.
  intros Hv Hmax. destruct (valid_date_fields d Hv) as [Hy [Hm Hd]].
  destruct d as [Y m dd]. cbn [year month day] in *.
  unfold next_day. cbn [year month day].
  change (days_in_month Y m) with (dim_leap (is_leap Y) m).
  destruct (dd <? dim_leap (is_leap Y) m) eqn:E1.
  - apply Z.ltb_lt in E1. unfold valid_date, MINYEAR, MAXYEAR.
    cbn [year month day].
    change (days_in_month Y m) with (dim_leap (is_leap Y) m).
    repeat (apply andb_true_iff; split); apply Z.leb_le; lia.
  - apply Z.ltb_ge in E1. destruct (m <? 12) eqn:E2.
    + apply Z.ltb_lt in E2. unfold valid_date, MINYEAR, MAXYEAR.
      cbn [year month day].
      change (days_in_month Y (m + 1)) with (dim_leap (is_leap Y) (m + 1)).
      pose proof (dim_leap_lower (is_leap Y) (m + 1) ltac:(lia)).
      repeat (apply andb_true_iff; split); apply Z.leb_le; lia.
    + apply Z.ltb_ge in E2.
      destruct (dim_leap_december_inv (is_leap Y) m Hm ltac:(lia)) as [-> E31].
      assert (dd = 31) by lia. subst dd.
      assert (Y <> 9999) by (intros ->; apply Hmax; reflexivity).
      unfold valid_date, MINYEAR, MAXYEAR. cbn [year month day].
      change (days_in_month (Y + 1) 1) with (dim_leap (is_leap (Y + 1)) 1).
      pose proof (dim_leap_lower (is_leap (Y + 1)) 1 ltac:(lia)).
      repeat (apply andb_true_iff; split); apply Z.leb_le; lia.
Qed.

(** The next day has the next ordinal. *)
Lemma toordinal_next_day d :
  valid_date d = true -> toordinal (next_day d) = toordinal d + 1.
Proof.
  intros Hv. destruct (valid_date_fields d Hv) as [Hy [Hm Hd]].
  destruct d as [Y m dd]. cbn [year month day] in *.
  unfold next_day, toordinal, ymd2ord. cbn [year month day].
  change (days_in_month Y m) with (dim_leap (is_leap Y) m).
  destruct (dd <? dim_leap (is_leap Y) m) eqn:E1; cbn [year month day].
  - lia.
  - apply Z.ltb_ge in E1. destruct (m <? 12) eqn:E2; cbn [year month day].
    + apply Z.ltb_lt in E2.
      change (days_before_month Y (m + 1)) with (dbm_leap (is_leap Y) (m + 1)).
      change (days_before_month Y m) with (dbm_leap (is_leap Y) m).
      rewrite dbm_leap_succ by lia. lia.
    + apply Z.ltb_ge in E2.
      destruct (dim_leap_december_inv (is_leap Y) m Hm ltac:(lia)) as [-> E31].
      rewrite days_before_year_succ.
      change (days_before_month (Y + 1) 1) with 0.
      change (days_before_month Y 12) with (dbm_leap (is_leap Y) 12).
      pose proof (dbm_leap_december (is_leap Y)) as HD.
      rewrite E31 in HD. destruct (is_leap Y); lia.
Qed.

(** Ordinals of dates lie in [1 .. MAXORDINAL]. *)
Lemma toordinal_bounds d :
  valid_date d = true -> 1 <= toordinal d <= MAXORDINAL.
Proof.
  intros Hv. destruct (valid_date_fields d Hv) as [Hy [Hm Hd]].
  destruct d as [Y m dd]. cbn [year month day] in *.
  destruct (month_day_of (is_leap Y) m dd Hm Hd) as [_ [Hk _]].
  cbv zeta in Hk.
  unfold toordinal, ymd2ord, MAXORDINAL. cbn [year month day].
  change (days_before_month Y m) with (dbm_leap (is_leap Y) m).
  pose proof (days_before_year_succ Y) as HS.
  assert (HL : 0 <= days_before_year Y)
    by (unfold days_before_year; cbv zeta; Z.div_mod_to_equations; lia).
  assert (HU : days_before_year (Y + 1) <= 3652059)
    by (unfold days_before_year; cbv zeta; Z.div_mod_to_equations; lia).
  destruct (is_leap Y); lia.
Qed.

(** Adding one day gives the next day of the calendar. *)
Lemma add_one_day d :
  valid_date d = true -> d <> date_max ->
  add_days d 1 = Some (next_day d).
Proof.
  intros Hv Hmax. unfold add_days.
  pose proof (valid_next_day d Hv Hmax) as Hn.
  pose proof (toordinal_bounds (next_day d) Hn) as Hb.
  rewrite toordinal_next_day in Hb by exact Hv.
  replace ((0 <? toordinal d + 1) && (toordinal d + 1 <=? MAXORDINAL))
    with true
    by (symmetry; apply andb_true_iff; split;
        [apply Z.ltb_lt | apply Z.leb_le]; lia).
  rewrite <- toordinal_next_day by exact Hv.
  now rewrite ord2ymd_toordinal.
Qed.

(** Past the last date there is nothing to add to. *)
Lemma add_one_day_max : add_days date_max 1 = None.
Proof. reflexivity. Qed.

End CalendarFacts.

(** ** Date parsing *)

Example parse_date_iso :
  parse_date "2024-07-15" (Date 1 1 1) = Ok (Date 2024 7 15).
Proof. reflexivity. Qed.

Example parse_date_blank :
  parse_date "   " (Date 2023 7 16) = Ok (Date 2023 7 16).
Proof. reflexivity. Qed.

Example parse_date_padded_parts :
  parse_date " 2024 - 01 - 05 " (Date 1 1 1) = Ok (Date 2024 1 5).
Proof. reflexivity. Qed.

Example parse_date_no_such_day :
  parse_date "2024-02-30" (Date 1 1 1)
  = Raise (Exn ValueError "Invalid date: '2024-02-30'. Expected YYYY-MM-DD").
Proof. reflexivity. Qed.

Example parse_date_two_parts :
  parse_date "2024-07" (Date 1 1 1)
  = Raise (Exn ValueError "Invalid date: '2024-07'. Expected YYYY-MM-DD").
Proof. reflexivity. Qed.

Example py_int_literals :
  map py_int ["5_0"; "5__0"; "_5"; "5_"; "+_5"; ""; "+"; "007"; " +5 ";
              "+ 5"; "-5"; "--5"; "1e3"]
  = [Some 50; None; None; None; None; None; None; Some 7; Some 5; None;
     Some (-5); None; None].
Proof. reflexivity. Qed.

Lemma Some_not_None_in {A} (l : list (option A)) (x y z : A) :
  In None l -> l <> [Some x; Some y; Some z].
Proof.
  intros Hin E. subst l. cbn [In] in Hin.
  repeat (destruct Hin as [Hin|Hin]; [discriminate|]). exact Hin.
Qed.

(** Every failure of [parse_date] is the one [ValueError], and its message
    quotes the trimmed text. *)
Lemma parse_date_error s fb e :
  parse_date s fb = Raise e ->
  e = Exn ValueError (invalid_date_msg (strip s))
  /\ contains (strip s) (exn_msg e) = true.
Proof.
  unfold parse_date. intros H.
  assert (G : Raise (A := date) e
              = Raise (Exn ValueError (invalid_date_msg (strip s)))).
  { destruct (String.eqb (strip s) ""); [discriminate|].
    destruct (map py_int (split "-" (strip s))) as [|[y|] [|[m|] [|[d|] [|? ?]]]];
      try exact (eq_sym H) || (symmetry; exact H).
    destruct (mk_date y m d); [discriminate | symmetry; exact H]. }
  inversion G. split; [reflexivity|].
  cbn [exn_msg]. apply TextFacts.invalid_date_msg_contains.
Qed.

(** Text that is accepted without being blank splits into three integer
    literals that form a date. *)
Lemma parse_date_accepts s fb d :
  all_space s = false -> parse_date s fb = Ok d ->
  valid_date d = true
  /\ map py_int (split "-" (strip s))
     = [Some (year d); Some (month d); Some (day d)].
Proof.
  unfold parse_date. intros Hs H.
  destruct (String.eqb (strip s) "") eqn:E.
  - apply String.eqb_eq in E. apply TextFacts.strip_empty_all_space in E.
    congruence.
  - destruct (map py_int (split "-" (strip s)))
      as [|[y|] [|[m|] [|[dd|] [|? ?]]]]; try discriminate.
    unfold mk_date in H. destruct (valid_date (Date y m dd)) eqn:V;
      [|discriminate].
    inversion H; subst d. split; [exact V | reflexivity].
Qed.

(** The ISO text of every date parses to that date. *)
Lemma parse_date_isoformat d fb :
  valid_date d = true -> parse_date (isoformat d) fb = Ok d.
Proof.
  intros Hv. destruct (TextFacts.isoformat_parts d Hv) as [Hs [Hne Hp]].
  unfold parse_date. rewrite Hs.
  replace (String.eqb (isoformat d) "") with false
    by (symmetry; now apply String.eqb_neq).
  rewrite Hp. unfold mk_date.
  destruct d as [y m dd]. cbn [year month day]. now rewrite Hv.
Qed.

(** Three integer literals that form a date are accepted, whatever their
    widths. *)
Lemma parse_date_three_literals s fb y m d :
  all_space s = false ->
  map py_int (split "-" (strip s)) = [Some y; Some m; Some d] ->
  parse_date s fb
  = if valid_date (Date y m d) then Ok (Date y m d)
    else Raise (Exn ValueError (invalid_date_msg (strip s))).
Proof.
  intros Hs Hp. unfold parse_date.
  destruct (String.eqb (strip s) "") eqn:E.
  - apply String.eqb_eq in E. apply TextFacts.strip_empty_all_space in E.
    congruence.
  - rewrite Hp. unfold mk_date. now destruct (valid_date (Date y m d)).
Qed.

(** C4, as the code has it.  Blank text gives the fallback itself.  Text
    that is not blank is accepted exactly when, trimmed, it splits at
    hyphens into three integer literals that form a date, and then gives
    that date: the strict shape is among these texts (the ISO text of a
    date gives that date), and so is any other spelling of the three
    numbers.  Text that splits into another number of parts, or has a part
    that is no integer literal, or whose numbers form no date, fails, and
    every failure is a [ValueError] whose message quotes the trimmed
    text. *)
Theorem parse_date_behaviour :
  forall (s : string) (fb : date),
    (all_space s = true -> parse_date s fb = Ok fb)
    /\ (all_space s = false ->
        (List.length (split "-" (strip s)) <> 3%nat
         \/ In None (map py_int (split "-" (strip s)))) ->
        parse_date s fb
        = Raise (Exn ValueError (invalid_date_msg (strip s))))
    /\ (forall e, parse_date s fb = Raise e ->
        e = Exn ValueError (invalid_date_msg (strip s))
        /\ contains (strip s) (exn_msg e) = true)
    /\ (forall d, valid_date d = true -> parse_date (isoformat d) fb = Ok d)
    /\ (forall d, all_space s = false -> parse_date s fb = Ok d ->
        valid_date d = true
        /\ map py_int (split "-" (strip s))
           = [Some (year d); Some (month d); Some (day d)])
    /\ (forall y m d, all_space s = false ->
        map py_int (split "-" (strip s)) = [Some y; Some m; Some d] ->
        valid_date (Date y m d) = true ->
        parse_date s fb = Ok (Date y m d))
    /\ (forall y m d, all_space s = false ->
        map py_int (split "-" (strip s)) = [Some y; Some m; Some d] ->
        valid_date (Date y m d) = false ->
        parse_date s fb
        = Raise (Exn ValueError (invalid_date_msg (strip s)))).
Proof.
  intros s fb. split; [|split; [|split; [|split; [|split; [|split]]]]].
  - intros H. unfold parse_date.
    now rewrite (TextFacts.all_space_strip s H).
  - intros Hs Hbad.
    destruct (parse_date s fb) as [d|e] eqn:E.
    + exfalso. destruct (parse_date_accepts s fb d Hs E) as [_ Hp].
      destruct Hbad as [Hlen|Hnone].
      * apply Hlen. rewrite <- (length_map py_int), Hp. reflexivity.
      * now apply (Some_not_None_in _ (year d) (month d) (day d)) in Hnone.
    + destruct (parse_date_error s fb e E) as [-> _]. reflexivity.
  - intros e. apply parse_date_error.
  - intros d Hv. now apply parse_date_isoformat.
  - intros d. apply parse_date_accepts.
  - intros y m d Hs Hp Hv.
    now rewrite (parse_date_three_literals s fb y m d Hs Hp), Hv.
  - intros y m d Hs Hp Hv.
    now rewrite (parse_date_three_literals s fb y m d Hs Hp), Hv.
Qed.

(** C4 as stated fails: text outside the strict shape is accepted. *)
Lemma parse_date_not_strict :
  ~ (forall (s : string) (fb d : date),
       parse_date s fb = Ok d ->
       strip s = "" \/ is_strict_format (strip s) = true).
Proof.
  intros H.
  destruct (H "2024-1-5" (Date 1 1 1) (Date 2024 1 5) eq_refl) as [E|E];
    discriminate.
Qed.

Lemma parse_date_behaviour_witness :
  parse_date "   " (Date 2023 7 16) = Ok (Date 2023 7 16)
  /\ parse_date "2024/07/15" (Date 2023 7 16)
     = Raise (Exn ValueError (invalid_date_msg "2024/07/15"))
  /\ parse_date (isoformat (Date 2024 7 15)) (Date 2023 7 16)
     = Ok (Date 2024 7 15)
  /\ parse_date " 2024-1-5" (Date 2023 7 16) = Ok (Date 2024 1 5)
  /\ parse_date "2024-02-30" (Date 2023 7 16)
     = Raise (Exn ValueError (invalid_date_msg "2024-02-30")).
Proof.
  destruct (parse_date_behaviour "   " (Date 2023 7 16)) as [H1 _].
  destruct (parse_date_behaviour "2024/07/15" (Date 2023 7 16))
    as [_ [H2 [_ [H4 _]]]].
  destruct (parse_date_behaviour " 2024-1-5" (Date 2023 7 16))
    as [_ [_ [_ [_ [_ [H6 _]]]]]].
  destruct (parse_date_behaviour "2024-02-30" (Date 2023 7 16))
    as [_ [_ [_ [_ [_ [_ H7]]]]]].
  split; [apply H1; reflexivity|].
  split; [apply H2; [reflexivity | left; vm_compute; discriminate]|].
  split; [apply H4; reflexivity|].
  split; [apply (H6 2024 1 5); reflexivity|].
  apply (H7 2024 2 30); reflexivity.
Defined.

(** ** Validation of a request *)

Lemma str_or_empty x : str_or x "" = x.
Proof.
  unfold str_or. destruct (String.eqb x "") eqn:E; [|reflexivity].
  apply String.eqb_eq in E. now subst.
Qed.

Lemma date_leb_ltb a b : date_leb a b = negb (date_ltb b a).
Proof. unfold date_leb, date_ltb. lia.
Qed.

(** [validate] once symbol and both dates are known. *)
Lemma validate_dates today u fb s e :
  upper (strip (symbol_var u)) <> "" ->
  add_days today (-365) = Some fb ->
  parse_date (start_var u) fb = Ok s ->
  parse_date (end_var u) today = Ok e ->
  validate today u
  = if date_ltb e s
    then Raise (Exn ValueError "End date is before start date")
    else Ok (Request (upper (strip (symbol_var u))) s e
               (str_or (interval_var u) "1d")).
Proof.
  intros Hsym Hfb Hs He. unfold validate.
  rewrite str_or_empty.
  replace (String.eqb (upper (strip (symbol_var u))) "") with false
    by (symmetry; now apply String.eqb_neq).
  rewrite Hfb. cbn [bind]. rewrite Hs. cbn [bind]. rewrite He. cbn [bind].
  reflexivity.
Qed.

(** C5. With a ticker typed in and both date fields denoting dates [s] and
    [e]: when [s <= e] validation passes, the thread is started with a
    request that carries exactly [s] and [e], and the refresh control is
    disabled under a loading message; when [e < s] the only effect is the
    notice "End date is before start date", and no thread is started. *)
Theorem date_order_rule :
  forall (today : date) (u : ui) (fb s e : date),
    upper (strip (symbol_var u)) <> "" ->
    add_days today (-365) = Some fb ->
    parse_date (start_var u) fb = Ok s ->
    parse_date (end_var u) today = Ok e ->
    (date_leb s e = true ->
       exists r,
         validate today u = Ok r
         /\ _fetch_and_plot_async today u
            = (set_status (loading_msg r) (set_load_btn DISABLED u), Some r)
         /\ rq_start r = s /\ rq_end r = e)
    /\ (date_ltb e s = true ->
          _fetch_and_plot_async today u
          = (showerror "Input error" "End date is before start date" u, None)).
Proof.
  intros today u fb s e Hsym Hfb Hs He.
  pose proof (validate_dates today u fb s e Hsym Hfb Hs He) as V.
  split.
  - intros Hle. rewrite date_leb_ltb in Hle. apply negb_true_iff in Hle.
    rewrite Hle in V. eexists. split; [exact V|].
    unfold _fetch_and_plot_async. rewrite V. repeat split.
  - intros Hlt. rewrite Hlt in V.
    unfold _fetch_and_plot_async. now rewrite V.
Qed.

Lemma date_order_rule_witness :
  (exists r,
     validate sample_today sample_ui = Ok r
     /\ _fetch_and_plot_async sample_today sample_ui
        = (set_status (loading_msg r) (set_load_btn DISABLED sample_ui),
           Some r)
     /\ rq_start r = Date 2024 1 1 /\ rq_end r = Date 2024 7 15)
  /\ _fetch_and_plot_async sample_today
       (apply_edit (TypeStart "2024-08-01") sample_ui)
     = (showerror "Input error" "End date is before start date"
          (apply_edit (TypeStart "2024-08-01") sample_ui), None).
Proof.
  split.
  - apply (date_order_rule sample_today sample_ui (Date 2023 7 16)
             (Date 2024 1 1) (Date 2024 7 15));
      [discriminate | reflexivity | reflexivity | reflexivity | reflexivity].
  - apply (date_order_rule sample_today
             (apply_edit (TypeStart "2024-08-01") sample_ui) (Date 2023 7 16)
             (Date 2024 8 1) (Date 2024 7 15));
      [discriminate | reflexivity | reflexivity | reflexivity | reflexivity].
Defined.

(** ** The interval *)

Lemma validate_interval_free today u r i :
  validate today u = Ok r ->
  validate today (apply_edit (ChooseInterval i) u)
  = Ok (Request (rq_symbol r) (rq_start r) (rq_end r) (str_or i "1d")).
Proof.
  unfold validate. cbn [apply_edit symbol_var start_var end_var interval_var].
  destruct (String.eqb (upper (strip (str_or (symbol_var u) ""))) "");
    [discriminate|].
  destruct (add_days today (-365)) as [fb|]; cbn [bind]; [|discriminate].
  destruct (parse_date (start_var u) fb) as [s|]; cbn [bind]; [|discriminate].
  destruct (parse_date (end_var u) today) as [e|]; cbn [bind]; [|discriminate].
  destruct (date_ltb e s); [discriminate|].
  intros H. inversion H. reflexivity.
Qed.

(** C9, as the code has it.  The interval of a request is the daily one
    when the field is empty and the text of the field, unchanged, in every
    other case; validation never looks at the enumerated set, so a request
    that passes with one interval passes with every other. *)
Theorem interval_rule :
  forall (today : date) (u : ui) (r : request),
    validate today u = Ok r ->
    rq_interval r = (if String.eqb (interval_var u) "" then "1d"
                     else interval_var u)
    /\ forall i,
         validate today (apply_edit (ChooseInterval i) u)
         = Ok (Request (rq_symbol r) (rq_start r) (rq_end r)
                 (if String.eqb i "" then "1d" else i)).
Proof.
  intros today u r H. split.
  - pose proof (validate_interval_free today u r (interval_var u) H) as G.
    replace (apply_edit (ChooseInterval (interval_var u)) u) with u in G
      by (destruct u; reflexivity).
    rewrite H in G. inversion G as [E]. rewrite <- E at 1.
    destruct r; cbn [rq_interval] in *. unfold str_or in E.
    now inversion E.
  - intros i. apply (validate_interval_free today u r i H).
Qed.

(** C9 as stated fails: a value outside the enumerated set is passed on. *)
Lemma interval_not_checked :
  ~ (forall (today : date) (u : ui) (r : request),
       validate today u = Ok r -> In (rq_interval r) interval_choices).
Proof.
  intros H.
  specialize (H sample_today (apply_edit (ChooseInterval "2d") sample_ui)
                (Request "AAPL" (Date 2024 1 1) (Date 2024 7 15) "2d")
                eq_refl).
  cbn in H. repeat (destruct H as [H|H]; [discriminate|]). exact H.
Qed.

Lemma interval_rule_witness :
  rq_interval sample_request = "1d"
  /\ validate sample_today (apply_edit (ChooseInterval "") sample_ui)
     = Ok (Request "AAPL" (Date 2024 1 1) (Date 2024 7 15) "1d")
  /\ validate sample_today (apply_edit (ChooseInterval "1wk") sample_ui)
     = Ok (Request "AAPL" (Date 2024 1 1) (Date 2024 7 15) "1wk")
  /\ validate sample_today (apply_edit (ChooseInterval "2d") sample_ui)
     = Ok (Request "AAPL" (Date 2024 1 1) (Date 2024 7 15) "2d").
Proof.
  destruct (interval_rule sample_today sample_ui sample_request eq_refl)
    as [H1 H2].
  split; [exact H1|].
  split; [exact (H2 "")|]. split; [exact (H2 "1wk") | exact (H2 "2d")].
Defined.

(** ** Quick ranges *)

Lemma async_keeps_dates today u :
  start_var (fst (_fetch_and_plot_async today u)) = start_var u
  /\ end_var (fst (_fetch_and_plot_async today u)) = end_var u.
Proof.
  unfold _fetch_and_plot_async. destruct (validate today u); split; reflexivity.
Qed.

(** Year-to-date starts on the first of January of the current year. *)
Lemma quick_range_ytd today :
  valid_date today = true ->
  quick_range Ytd today = Ok (Date (year today) 1 1, today).
Proof.
  intros Hv. destruct (CalendarFacts.valid_date_fields today Hv) as [Hy _].
  unfold quick_range, mk_date, valid_date, MINYEAR, MAXYEAR.
  cbn [year month day].
  replace (1 <=? year today) with true by (symmetry; apply Z.leb_le; lia).
  replace (year today <=? 9999) with true by (symmetry; apply Z.leb_le; lia).
  reflexivity.
Qed.

(** C10. On 2024-07-15 the year-to-date preset gives 2024-01-01 to
    2024-07-15 and writes these into the two date fields; the "max" preset
    gives, on every day, the fixed start 1980-01-01 and the current day as
    end, and writes both into the date fields. *)
Theorem quick_range_presets :
  quick_range Ytd (Date 2024 7 15) = Ok (Date 2024 1 1, Date 2024 7 15)
  /\ (forall u, exists u' r,
        _set_quick_range Ytd (Date 2024 7 15) u = Ok (u', r)
        /\ start_var u' = "2024-01-01" /\ end_var u' = "2024-07-15")
  /\ (forall today, quick_range Max today = Ok (Date 1980 1 1, today))
  /\ (forall today u, exists u' r,
        _set_quick_range Max today u = Ok (u', r)
        /\ start_var u' = "1980-01-01" /\ end_var u' = isoformat today).
Proof.
  split; [reflexivity|]. split; [|split; [reflexivity|]].
  - intros u. unfold _set_quick_range.
    change (quick_range Ytd (Date 2024 7 15))
      with (Ok (A := date * date) (Date 2024 1 1, Date 2024 7 15)).
    cbn [bind fst snd].
    destruct (async_keeps_dates (Date 2024 7 15)
                (set_dates (isoformat (Date 2024 1 1))
                   (isoformat (Date 2024 7 15)) u)) as [H1 H2].
    destruct (_fetch_and_plot_async _ _) as [u' r].
    exists u', r. split; [reflexivity|]. cbn [fst] in H1, H2.
    split; [exact H1 | exact H2].
  - intros today u. unfold _set_quick_range.
    change (quick_range Max today)
      with (Ok (A := date * date) (Date 1980 1 1, today)).
    cbn [bind fst snd].
    destruct (async_keeps_dates today
                (set_dates (isoformat (Date 1980 1 1)) (isoformat today) u))
      as [H1 H2].
    destruct (_fetch_and_plot_async _ _) as [u' r].
    exists u', r. split; [reflexivity|]. cbn [fst] in H1, H2.
    split; [exact H1 | exact H2].
Qed.

(** ** The end bound handed to the provider *)

Example end_of_february :
  add_days (Date 2024 2 28) 1 = Some (Date 2024 2 29)
  /\ add_days (Date 2023 2 28) 1 = Some (Date 2023 3 1)
  /\ add_days (Date 2023 12 31) 1 = Some (Date 2024 1 1).
Proof. repeat split. Qed.

(** C6, as the code has it.  For every request whose end is a date before
    the last one the calendar holds, whatever its interval, the provider is
    called with the symbol, the ISO text of the start, the ISO text of the
    day after the end, and the interval. *)
Theorem end_bound_next_day :
  forall r : request,
    valid_date (rq_end r) = true ->
    rq_end r <> date_max ->
    download_call r
    = Ok (ProviderCall (rq_symbol r) (isoformat (rq_start r))
            (isoformat (next_day (rq_end r))) (rq_interval r)).
Proof.
  intros r Hv Hmax. unfold download_call.
  now rewrite (CalendarFacts.add_one_day (rq_end r) Hv Hmax).
Qed.

(** C6 as stated fails: for the weekly interval the bound is one day past
    the end, not one week. *)
Lemma end_bound_not_interval_unit : ~ end_bound_one_unit_past weekly_request.
Proof.
  intros H.
  specialize (H 7 (ProviderCall "AAPL" "2024-01-01" "2024-07-16" "1wk")
                (Date 2024 7 22) eq_refl eq_refl eq_refl).
  discriminate H.
Qed.

Lemma end_bound_next_day_witness :
  download_call weekly_request
  = Ok (ProviderCall "AAPL" "2024-01-01" "2024-07-16" "1wk").
Proof.
  apply (end_bound_next_day weekly_request); [reflexivity | discriminate].
Defined.

(** ** Failed fetches *)


(** A failed [try] block schedules the failure handler, never a redraw. *)
Lemma failure_schedules_handler yf r u e :
  fetch yf r = Raise e ->
  _fetch_and_plot yf r u = Scheduled (OnFetchError (e_cell e)).
Proof. intros H. unfold _fetch_and_plot. now rewrite H. Qed.

(** A table with rows is handed on. *)
Lemma fetch_table yf r c df :
  download_call r = Ok c -> yf c = ReturnsTable df -> frame_empty df = false ->
  fetch yf r = Ok df.
Proof.
  intros Hc Hy He. unfold fetch. rewrite Hc. cbn [bind]. now rewrite Hy, He.
Qed.


(** The handler, run once the thread has left its [except] clause: the
    lambda fails on the unbound [e] and nothing is changed. *)
Lemma handler_after_except e u :
  run_callback AfterExcept (OnFetchError (e_cell e)) u = (u, Raise unbound_e).
Proof. reflexivity. Qed.

Lemma apply_edits_keep u es :
  load_btn (apply_edits es u) = load_btn u
  /\ status_var (apply_edits es u) = status_var u
  /\ chart (apply_edits es u) = chart u
  /\ notices (apply_edits es u) = notices u.
Proof.
  unfold apply_edits. revert u.
  induction es as [|e es IH]; intros u; cbn [fold_left]; [auto|].
  destruct (IH (apply_edit e u)) as [H1 [H2 [H3 H4]]].
  rewrite H1, H2, H3, H4. destruct e; auto.
Qed.

(** A cycle whose fetch fails and whose handler runs after the thread left
    the [except] clause ends as it was left at dispatch: control disabled,
    loading message, no notice. *)
Lemma late_handler_cycle today yf es1 es2 u r e :
  validate today u = Ok r ->
  fetch yf r = Raise e ->
  let out := fetch_cycle today yf es1 es2 AfterExcept u in
  snd out = Raise unbound_e
  /\ load_btn (fst out) = DISABLED
  /\ status_var (fst out) = loading_msg r
  /\ chart (fst out) = chart u
  /\ notices (fst out) = notices u.
Proof.
  intros Hv Hf. unfold fetch_cycle, _fetch_and_plot_async. rewrite Hv.
  rewrite (failure_schedules_handler yf r _ e Hf).
  rewrite handler_after_except. cbn [fst snd].
  destruct (apply_edits_keep
              (apply_edits es1
                 (set_status (loading_msg r) (set_load_btn DISABLED u))) es2)
    as [H1 [H2 [H3 H4]]].
  destruct (apply_edits_keep
              (set_status (loading_msg r) (set_load_btn DISABLED u)) es1)
    as [G1 [G2 [G3 G4]]].
  rewrite H1, H2, H3, H4, G1, G2, G3, G4. repeat split.
Qed.


(** C2, on the code.  A fetch that fails in any of the three ways, with the
    scheduled handler run after the thread has left its [except] clause:
    the three cycles end alike, but with the loading message still shown,
    no notice raised and the lambda's [NameError] reported instead of
    status "Error".  The chart is as it was. *)
Theorem failed_fetch_not_surfaced :
  fetch_cycle sample_today provider_raises [] [] AfterExcept sample_ui
  = (sample_loading_ui, Raise unbound_e)
  /\ fetch_cycle sample_today provider_none [] [] AfterExcept sample_ui
     = (sample_loading_ui, Raise unbound_e)
  /\ fetch_cycle sample_today provider_empty [] [] AfterExcept sample_ui
     = (sample_loading_ui, Raise unbound_e)
  /\ status_var sample_loading_ui <> "Error"
  /\ notices sample_loading_ui = []
  /\ chart sample_loading_ui = chart sample_ui.
Proof. repeat split. discriminate. Qed.

(** C3, on the code.  The cycle of an empty table whose handler runs after
    the thread has left its [except] clause ends with the refresh control
    disabled. *)
Theorem failed_fetch_leaves_control_disabled :
  load_btn
    (fst (fetch_cycle sample_today provider_empty [] [] AfterExcept sample_ui))
  = DISABLED.
Proof. reflexivity. Qed.

(** ** Redraws *)

Ltac ui_norm :=
  unfold draw, set_chart, set_status, set_load_btn, showerror;
  cbn [chart notices symbol_var start_var end_var interval_var ma5_var
       ma20_var ma50_var load_btn status_var].

Ltac act_step := unfold act_bind at 1; unfold act_do at 1; ui_norm.

Lemma plot_ma_lines_ok df cols :
  (forall c, In c cols -> has_column c df = true) ->
  forall u,
    plot_ma_lines df cols u
    = (set_chart (chart u ++ ma_lines df cols)%list u, Ok tt).
Proof.
  induction cols as [|c cols IH]; intros Hall u.
  - cbn [plot_ma_lines ma_lines map]. unfold act_ret.
    rewrite app_nil_r. destruct u; reflexivity.
  - cbn [plot_ma_lines ma_lines map].
    assert (Hc : has_column c df = true) by (apply Hall; now left).
    unfold has_column in Hc. unfold act_bind at 1. unfold act_lift, frame_get.
    destruct (col_get c (columns df)) as [ys|]; [|discriminate].
    unfold act_bind at 1. unfold act_do at 1.
    rewrite IH by (intros c' Hc'; apply Hall; now right).
    destruct u. unfold draw, set_chart, ma_lines. cbn [chart].
    now rewrite <- app_assoc.
Qed.

Lemma draw_volume_ok df u :
  draw_volume df u
  = (Ui (symbol_var u) (start_var u) (end_var u) (interval_var u)
        (ma5_var u) (ma20_var u) (ma50_var u) (load_btn u) (status_var u)
        (chart u ++ volume_ops df)%list
        (notices u ++ volume_notices df)%list,
     Ok tt).
Proof.
  destruct u. unfold draw_volume, volume_ops, volume_notices.
  destruct (volume df) as [vol|].
  - destruct (first_of_each vol) as [lst|e];
      unfold act_bind, act_do, draw, showerror, set_chart;
      cbn [chart notices symbol_var start_var end_var interval_var ma5_var
           ma20_var ma50_var load_btn status_var];
      rewrite ?app_nil_r, <- ?app_assoc; reflexivity.
  - unfold act_ret.
    cbn [chart notices symbol_var start_var end_var interval_var ma5_var
         ma20_var ma50_var load_btn status_var].
    now rewrite !app_nil_r.
Qed.

(** A redraw on a table that has its price column and its moving-average
    columns runs to its end. *)
Lemma draw_plot_completes symbol df pc cols interval s e prices u :
  frame_get pc df = Ok prices ->
  (forall c, In c cols -> has_column c df = true) ->
  _draw_plot symbol df pc cols interval s e u
  = (rendered_ui symbol df pc cols interval s e prices u, Ok tt).
Proof.
  intros Hp Hall. destruct u as [sy sv ev iv m5 m20 m50 lb st ch nt].
  unfold _draw_plot.
  act_step. act_step.
  unfold act_bind at 1. unfold act_lift at 1. rewrite Hp.
  act_step.
  unfold act_bind at 1. rewrite (plot_ma_lines_ok df cols Hall). ui_norm.
  act_step. act_step. act_step. act_step.
  unfold act_bind at 1. rewrite draw_volume_ok. ui_norm.
  act_step. act_step. act_step. act_step.
  unfold act_do. ui_norm.
  unfold rendered_ui, rendered_chart. ui_norm. cbn [app].
  repeat rewrite <- app_assoc. cbn [app]. reflexivity.
Qed.

(** The columns a transform names are columns of the table it returns. *)
Lemma transform_cols_present u df df' pc cols :
  transform u df = Ok (df', pc, cols) ->
  forall c, In c cols -> has_column c df' = true.
Proof.
  intros H c Hin.
  destruct (frame_get (price_column df) df) as [p|e0] eqn:Hp.
  - destruct (transform_columns u df p Hp)
      as [df2 [cols2 [E [_ [_ [_ [C M]]]]]]].
    rewrite E in H. inversion H as [[Hdf Hpc Hcols]]. clear H.
    rewrite <- Hcols, C in Hin. rewrite Hdf in M. clear Hdf Hcols.
    rewrite !in_app_iff in Hin.
    assert (G : exists w, In (c, w) ma_catalog /\ ma_enabled u c = true).
    { unfold ma_catalog, ma_enabled.
      destruct Hin as [Hin|[Hin|Hin]].
      - destruct (ma5_var u) eqn:T; cbn [In] in Hin; [|contradiction].
        destruct Hin as [<-|[]]. exists 5%nat. cbn. auto.
      - destruct (ma20_var u) eqn:T; cbn [In] in Hin; [|contradiction].
        destruct Hin as [<-|[]]. exists 20%nat. cbn. auto.
      - destruct (ma50_var u) eqn:T; cbn [In] in Hin; [|contradiction].
        destruct Hin as [<-|[]]. exists 50%nat. cbn. auto. }
    destruct G as [w [Hw He]].
    specialize (M c w Hw He). unfold has_column. unfold frame_get in M.
    destruct (col_get c (columns df')); [reflexivity | discriminate].
  - exfalso. unfold transform in H.
    destruct (ma5_var u) eqn:T5.
    + rewrite (add_ma_no_price _ _ _ _ _ e0 Hp) in H. discriminate.
    + rewrite add_ma_off in H. cbn [bind] in H.
      destruct (ma20_var u) eqn:T20.
      * rewrite (add_ma_no_price _ _ _ _ _ e0 Hp) in H. discriminate.
      * rewrite add_ma_off in H. cbn [bind] in H.
        destruct (ma50_var u) eqn:T50.
        -- rewrite (add_ma_no_price _ _ _ _ _ e0 Hp) in H. discriminate.
        -- rewrite add_ma_off in H. cbn [bind fst snd] in H.
           inversion H; subst. contradiction.
Qed.

(** A cycle whose fetch brings a table with rows and a price column ends
    with the control enabled and the row count in the status line. *)
Lemma successful_cycle today yf es1 es2 m u r c df prices :
  validate today u = Ok r ->
  download_call r = Ok c ->
  yf c = ReturnsTable df ->
  frame_empty df = false ->
  frame_get (price_column df) df = Ok prices ->
  let out := fetch_cycle today yf es1 es2 m u in
  snd out = Ok tt
  /\ load_btn (fst out) = NORMAL
  /\ status_var (fst out) = loaded_msg (rq_symbol r) (frame_len df).
Proof.
  intros Hv Hc Hy He Hp. unfold fetch_cycle, _fetch_and_plot_async.
  rewrite Hv. unfold _fetch_and_plot.
  rewrite (fetch_table yf r c df Hc Hy He).
  set (u2 := apply_edits es1 _).
  destruct (transform_columns u2 df prices Hp)
    as [df' [cols [E [P' [I' [V' [C' M']]]]]]].
  rewrite E. unfold run_callback.
  rewrite (draw_plot_completes _ df' _ cols _ _ _ prices _ P'
             (transform_cols_present u2 df df' _ cols E)).
  cbn [fst snd rendered_ui load_btn status_var]. unfold frame_len.
  rewrite I'. repeat split.
Qed.

(** ** Volume *)

(** C7, as the code has it.  When the volume column is there and taking
    the first element of each of its values fails, the redraw still runs to
    its end: price line, moving-average lines, title, status line with the
    row count and the refresh control enabled.  No volume bars are drawn;
    the volume panel keeps its label and grid; and the failure is shown to
    the user in a "Volume error" notice carrying the exception text. *)
Theorem volume_failure_degrades :
  forall (symbol : string) (df : frame) (pc : string) (cols : list string)
         (interval : string) (s e : date) (prices : column) (u : ui)
         (vol : list cell) (exc : exn),
    frame_get pc df = Ok prices ->
    (forall c, In c cols -> has_column c df = true) ->
    volume df = Some vol ->
    first_of_each vol = Raise exc ->
    let out := _draw_plot symbol df pc cols interval s e u in
    snd out = Ok tt
    /\ load_btn (fst out) = NORMAL
    /\ status_var (fst out) = loaded_msg symbol (frame_len df)
    /\ notices (fst out)
       = (notices u ++ [Notice "Volume error" (exn_msg exc)])%list
    /\ chart (fst out)
       = ([AddSubplots; PlotLine pc false (index df) prices]
          ++ ma_lines df cols
          ++ [SetTitle (plot_title symbol pc interval s e);
              SetYLabel PricePanel "Price"; ShowGrid PricePanel; ShowLegend;
              SetYLabel VolumePanel "Volume"; ShowGrid VolumePanel;
              DateAxis; TightLayout; DrawIdle])%list.
Proof.
  intros symbol df pc cols interval s e prices u vol exc Hp Hall Hvol Hfail.
  rewrite (draw_plot_completes symbol df pc cols interval s e prices u Hp Hall).
  cbn [fst snd rendered_ui load_btn status_var notices chart].
  unfold rendered_chart, volume_notices, volume_ops.
  rewrite Hvol, Hfail. repeat split.
Qed.

(** C7 as stated fails: on the sample, whose volume values are plain
    numbers, the failure is put in front of the user in a notice and the
    volume panel is still labelled. *)
Lemma volume_failure_shown : ~ volume_failure_absorbed.
Proof.
  intros H.
  destruct (H "AAPL" sample_transformed "Close" ["MA5"] "1d" (Date 2024 1 1)
              (Date 2024 7 15) sample_loading_ui
              (map (fun k => CNum (Some (inject_Z k)))
                 [100; 110; 120; 130; 140; 150; 160; 170; 180; 190])
              (Exn IndexError "invalid index to scalar variable.")
              eq_refl eq_refl) as [Hn _].
  vm_compute in Hn. discriminate Hn.
Qed.

Lemma volume_failure_degrades_witness :
  let out :=
    _draw_plot "AAPL" sample_transformed "Close" ["MA5"] "1d"
      (Date 2024 1 1) (Date 2024 7 15) sample_loading_ui in
  snd out = Ok tt
  /\ load_btn (fst out) = NORMAL
  /\ status_var (fst out) = "Loaded AAPL: 10 rows".
Proof.
  destruct (volume_failure_degrades "AAPL" sample_transformed "Close" ["MA5"]
              "1d" (Date 2024 1 1) (Date 2024 7 15) ten_prices
              sample_loading_ui
              (map (fun k => CNum (Some (inject_Z k)))
                 [100; 110; 120; 130; 140; 150; 160; 170; 180; 190])
              (Exn IndexError "invalid index to scalar variable."))
    as [H1 [H2 [H3 _]]].
  - reflexivity.
  - intros c [<-|[]]. reflexivity.
  - reflexivity.
  - reflexivity.
  - cbv zeta. split; [exact H1|]. split; [exact H2 | exact H3].
Defined.

(** ** What the thread reads *)

(** C8, as the code has it.  The thread works on the request it was given,
    the provider's reply, and the three toggles as they stand when the
    moving averages are computed: two interface states that agree on the
    toggles give the same scheduled call, whatever else differs. *)
Theorem thread_reads_toggles_only :
  forall (yf : provider) (r : request) (u1 u2 : ui),
    ma5_var u1 = ma5_var u2 ->
    ma20_var u1 = ma20_var u2 ->
    ma50_var u1 = ma50_var u2 ->
    _fetch_and_plot yf r u1 = _fetch_and_plot yf r u2.
Proof.
  intros yf r u1 u2 H5 H20 H50. unfold _fetch_and_plot, transform.
  now rewrite H5, H20, H50.
Qed.

(** Typing into the text fields after dispatch changes nothing for the
    thread. *)
Lemma text_edits_keep_toggles es : forall u,
  forallb (fun e => negb (is_toggle e)) es = true ->
  ma5_var (apply_edits es u) = ma5_var u
  /\ ma20_var (apply_edits es u) = ma20_var u
  /\ ma50_var (apply_edits es u) = ma50_var u.
Proof.
  unfold apply_edits.
  induction es as [|e es IH]; intros u H; cbn [fold_left]; [auto|].
  cbn [forallb] in H. apply andb_true_iff in H. destruct H as [He Hes].
  destruct (IH (apply_edit e u) Hes) as [H1 [H2 H3]].
  rewrite H1, H2, H3. destruct e; try discriminate; auto.
Qed.

(** C8 as stated fails: a toggle flipped after dispatch changes the series
    the in-flight cycle derives. *)
Lemma toggle_after_dispatch_changes_series :
  ~ (forall (yf : provider) (r : request) (u : ui) (es1 es2 : list user_edit),
       _fetch_and_plot yf r (apply_edits es1 u)
       = _fetch_and_plot yf r (apply_edits es2 u)).
Proof.
  intros H.
  specialize (H provider_sample sample_request sample_loading_ui []
                [ToggleMa5]).
  vm_compute in H. discriminate H.
Qed.

Lemma thread_reads_toggles_only_witness :
  _fetch_and_plot provider_sample sample_request sample_loading_ui
  = _fetch_and_plot provider_sample sample_request
      (apply_edits [TypeSymbol "msft"; TypeEnd ""; ChooseInterval "1wk"]
         sample_loading_ui).
Proof.
  apply (thread_reads_toggles_only provider_sample sample_request
           sample_loading_ui
           (apply_edits [TypeSymbol "msft"; TypeEnd ""; ChooseInterval "1wk"]
              sample_loading_ui));
    reflexivity.
Defined.

Lemma moving_average_column_witness :
  exists prices col,
    frame_get "Close" sample_frame = Ok prices
    /\ frame_get "MA5" sample_transformed = Ok col
    /\ In "MA5" ["MA5"]
    /\ List.length col = List.length prices
    /\ forall i, (i < List.length prices)%nat ->
         exists v,
           nth_error col i = Some v
           /\ ((i + 1 < 5)%nat -> v = None /\ v <> Some (0 # 1))
           /\ ((5 <= i + 1)%nat ->
                 oq_eq v (arithmetic_mean (window_prices 5 i prices))).
Proof.
  apply (moving_average_column sample_ui sample_frame sample_transformed
           "Close" ["MA5"] "MA5" 5%nat);
    [reflexivity | now left | reflexivity].
Defined.

(** * Further properties of the code *)

(** ** Dates and their ordinals *)

Module CalendarOrder.

Import CalendarFacts.

Lemma toordinal_year_bounds d :
  valid_date d = true ->
  days_before_year (year d) + 1 <= toordinal d
  /\ toordinal d <= days_before_year (year d + 1).
Proof.
  intros Hv. destruct (valid_date_fields d Hv) as [Hy [Hm Hd]].
  destruct d as [Y m dd]. cbn [year month day] in *.
  destruct (month_day_of (is_leap Y) m dd Hm Hd) as [_ [Hk _]].
  cbv zeta in Hk.
  unfold toordinal, ymd2ord. cbn [year month day].
  change (days_before_month Y m) with (dbm_leap (is_leap Y) m).
  rewrite days_before_year_succ. destruct (is_leap Y); lia.
Qed.

Lemma days_before_year_mono a b :
  a <= b -> days_before_year a <= days_before_year b.
Proof.
  intros H. unfold days_before_year. cbv zeta.
  Z.div_mod_to_equations. lia.
Qed.

Lemma month_pairs_table : month_pairs_ok true && month_pairs_ok false = true.
Proof. vm_compute. reflexivity. Qed.

Lemma dbm_leap_mono leap m m' :
  1 <= m -> m < m' -> m' <= 12 ->
  dbm_leap leap m + dim_leap leap m <= dbm_leap leap m'.
Proof.
  intros H1 H2 H3.
  assert (T : month_pairs_ok leap = true).
  { pose proof month_pairs_table as T. apply andb_true_iff in T.
    destruct leap; tauto. }
  unfold month_pairs_ok in T. rewrite forallb_forall in T.
  specialize (T m (TextFacts.count_from_in 12 1 m ltac:(lia))).
  unfold month_pair_ok in T. rewrite forallb_forall in T.
  specialize (T m' (TextFacts.count_from_in 12 1 m' ltac:(lia))).
  apply orb_true_iff in T. destruct T as [T|T].
  - apply negb_true_iff, Z.ltb_ge in T. lia.
  - now apply Z.leb_le in T.
Qed.

(** An earlier date has a smaller ordinal. *)
Lemma date_ltb_ordinal a b :
  valid_date a = true -> valid_date b = true ->
  date_ltb a b = true -> toordinal a < toordinal b.
Proof.
  intros Ha Hb Hlt.
  destruct (toordinal_year_bounds a Ha) as [La Ua].
  destruct (toordinal_year_bounds b Hb) as [Lb Ub].
  destruct (valid_date_fields a Ha) as [Hya [Hma Hda]].
  destruct (valid_date_fields b Hb) as [Hyb [Hmb Hdb]].
  unfold date_ltb in Hlt.
  destruct (Z.ltb_spec (year a) (year b)) as [Hy|Hy].
  - pose proof (days_before_year_mono (year a + 1) (year b) ltac:(lia)). lia.
  - cbn [orb] in Hlt. apply andb_true_iff in Hlt. destruct Hlt as [Ey Hlt].
    apply Z.eqb_eq in Ey.
    destruct a as [ya ma da], b as [yb mb db]. cbn [year month day] in *.
    subst yb. unfold toordinal, ymd2ord. cbn [year month day].
    change (days_before_month ya ma) with (dbm_leap (is_leap ya) ma).
    change (days_before_month ya mb) with (dbm_leap (is_leap ya) mb).
    destruct (Z.ltb_spec ma mb) as [Hm|Hm].
    + pose proof (dbm_leap_mono (is_leap ya) ma mb ltac:(lia) Hm ltac:(lia)).
      lia.
    + cbn [orb] in Hlt. apply andb_true_iff in Hlt. destruct Hlt as [Em Hd].
      apply Z.eqb_eq in Em. apply Z.ltb_lt in Hd. subst mb. lia.
Qed.

(** The order of dates is the order of their ordinals. *)
Lemma date_ltb_toordinal a b :
  valid_date a = true -> valid_date b = true ->
  date_ltb a b = (toordinal a <? toordinal b).
Proof.
  intros Ha Hb.
  destruct (date_ltb a b) eqn:E.
  - symmetry. apply Z.ltb_lt. now apply date_ltb_ordinal.
  - symmetry. apply Z.ltb_ge.
    destruct (date_ltb b a) eqn:E2.
    + pose proof (date_ltb_ordinal b a Hb Ha E2). lia.
    + assert (a = b).
      { destruct a as [ya ma da], b as [yb mb db].
        unfold date_ltb in E, E2. cbn [year month day] in *.
        assert (ya = yb /\ ma = mb /\ da = db) as [-> [-> ->]] by lia.
        reflexivity. }
      subst. lia.
Qed.

Lemma date_leb_toordinal a b :
  valid_date a = true -> valid_date b = true ->
  date_leb a b = (toordinal a <=? toordinal b).
Proof.
  intros Ha Hb. rewrite date_leb_ltb, (date_ltb_toordinal b a Hb Ha). lia.
Qed.

(** Every ordinal in range is the ordinal of a date. *)
Lemma ordinal_has_date (k : nat) :
  1 + Z.of_nat k <= MAXORDINAL ->
  exists d, valid_date d = true /\ toordinal d = 1 + Z.of_nat k.
Proof.
  induction k as [|k IH]; intros Hk.
  - exists (Date 1 1 1). split; reflexivity.
  - destruct IH as [d [Hv Ho]]; [lia|].
    assert (Hmax : d <> date_max).
    { intros ->. change (toordinal date_max) with MAXORDINAL in Ho. lia. }
    exists (next_day d). split.
    + now apply valid_next_day.
    + rewrite toordinal_next_day by exact Hv. lia.
Qed.

(** From an ordinal to its date and back. *)
Lemma toordinal_ord2ymd n :
  1 <= n <= MAXORDINAL ->
  valid_date (ord2ymd n) = true /\ toordinal (ord2ymd n) = n.
Proof.
  intros Hn.
  destruct (ordinal_has_date (Z.to_nat (n - 1)) ltac:(lia)) as [d [Hv Ho]].
  replace (1 + Z.of_nat (Z.to_nat (n - 1))) with n in Ho by lia.
  rewrite <- Ho, (ord2ymd_toordinal d Hv). auto.
Qed.

(** [d + timedelta(days=k)]: the date [k] ordinals on, when there is one. *)
Lemma add_days_in_range d k :
  valid_date d = true ->
  1 <= toordinal d + k <= MAXORDINAL ->
  exists d',
    add_days d k = Some d'
    /\ valid_date d' = true
    /\ toordinal d' = toordinal d + k.
Proof.
  intros Hv Hr. unfold add_days.
  replace ((0 <? toordinal d + k) && (toordinal d + k <=? MAXORDINAL))
    with true by lia.
  destruct (toordinal_ord2ymd (toordinal d + k) Hr) as [H1 H2].
  eexists. repeat split; assumption.
Qed.

Lemma add_days_out_of_range d k :
  toordinal d + k < 1 \/ MAXORDINAL < toordinal d + k ->
  add_days d k = None.
Proof.
  intros Hr. unfold add_days.
  replace ((0 <? toordinal d + k) && (toordinal d + k <=? MAXORDINAL))
    with false by lia.
  reflexivity.
Qed.

End CalendarOrder.

(** ** Trimming *)

Module StripFacts.

Import TextFacts.

Lemma lstrip_spaces a s : all_space a = true -> lstrip (a ++ s) = lstrip s.
Proof.
  induction a as [|c a IH]; cbn [all_space append lstrip]; auto.
  intros H. apply andb_true_iff in H. destruct H as [Hc Ha].
  rewrite Hc. auto.
Qed.

Lemma rstrip_all_space b : all_space b = true -> rstrip b = "".
Proof.
  induction b as [|c b IH]; cbn [all_space rstrip]; auto.
  intros H. apply andb_true_iff in H. destruct H as [Hc Hb].
  now rewrite (IH Hb), Hc.
Qed.

Lemma rstrip_spaces s b : all_space b = true -> rstrip (s ++ b) = rstrip s.
Proof.
  intros Hb. induction s as [|c s IH]; cbn [append].
  - now apply rstrip_all_space.
  - cbn [rstrip]. now rewrite IH.
Qed.

Lemma lstrip_all_space b : all_space b = true -> lstrip b = "".
Proof.
  induction b as [|c b IH]; cbn [all_space lstrip]; auto.
  intros H. apply andb_true_iff in H. destruct H as [Hc Hb].
  rewrite Hc. auto.
Qed.

Lemma strip_right_spaces s b :
  all_space b = true -> strip (s ++ b) = strip s.
Proof.
  intros Hb. unfold strip. induction s as [|c s IH]; cbn [append].
  - now rewrite (lstrip_all_space b Hb).
  - cbn [lstrip]. destruct (is_space c); [exact IH|].
    change (String c (s ++ b)) with (String c s ++ b).
    now apply rstrip_spaces.
Qed.

(** Blanks around a text do not change what [strip] gives. *)
Lemma strip_spaces a s b :
  all_space a = true -> all_space b = true -> strip (a ++ s ++ b) = strip s.
Proof.
  intros Ha Hb. unfold strip. rewrite (lstrip_spaces a (s ++ b) Ha).
  apply (strip_right_spaces s b Hb).
Qed.

Lemma rstrip_idem s : rstrip (rstrip s) = rstrip s.
Proof.
  induction s as [|c s IH]; [reflexivity|].
  cbn [rstrip]. destruct (rstrip s) as [|c' r'] eqn:E.
  - destruct (is_space c) eqn:Hc; [reflexivity|].
    cbn [rstrip]. now rewrite Hc.
  - change (rstrip (String c (String c' r')))
      with (match rstrip (String c' r') with
            | EmptyString =>
                if is_space c then EmptyString else String c EmptyString
            | r'' => String c r''
            end).
    now rewrite IH.
Qed.

Lemma lstrip_head s :
  lstrip s = "" \/ exists c r, lstrip s = String c r /\ is_space c = false.
Proof.
  induction s as [|c s IH]; cbn [lstrip]; auto.
  destruct (is_space c) eqn:Hc; auto. right. eauto.
Qed.

Lemma rstrip_keeps_head c r :
  is_space c = false -> exists r', rstrip (String c r) = String c r'.
Proof.
  intros Hc. cbn [rstrip]. destruct (rstrip r); [rewrite Hc|]; eauto.
Qed.

(** Trimming twice is trimming once. *)
Lemma strip_idem s : strip (strip s) = strip s.
Proof.
  unfold strip. destruct (lstrip_head s) as [E|[c [r [E Hc]]]]; rewrite E.
  - reflexivity.
  - destruct (rstrip_keeps_head c r Hc) as [r' E'].
    rewrite E'. cbn [lstrip]. rewrite Hc. rewrite <- E'. apply rstrip_idem.
Qed.

Lemma upper_char_table c : upper_char_ok c = true.
Proof. destruct c as [[] [] [] [] [] [] [] []]; vm_compute; reflexivity. Qed.

Lemma upper_char_facts c :
  no_lower (upper_char c) = true
  /\ upper_char c <> ""
  /\ (is_space c = true -> upper_char c = String c "")
  /\ (is_space c = false -> no_space (upper_char c) = true).
Proof.
  pose proof (upper_char_table c) as T. unfold upper_char_ok in T.
  apply andb_true_iff in T. destruct T as [T T3].
  apply andb_true_iff in T. destruct T as [T1 T2].
  apply negb_true_iff, String.eqb_neq in T2.
  repeat split; auto.
  - intros H. rewrite H in T3. now apply String.eqb_eq in T3.
  - intros H. now rewrite H in T3.
Qed.

Lemma no_lower_app a b : no_lower (a ++ b) = no_lower a && no_lower b.
Proof.
  induction a as [|c a IH]; cbn [append no_lower]; auto.
  now rewrite IH, andb_assoc.
Qed.

Lemma upper_no_lower s : no_lower (upper s) = true.
Proof.
  induction s as [|c s IH]; cbn [upper no_lower]; auto.
  destruct (upper_char_facts c) as [H _]. now rewrite no_lower_app, H, IH.
Qed.

Lemma lstrip_no_space a b :
  no_space a = true -> a <> "" -> lstrip (a ++ b) = a ++ b.
Proof.
  destruct a as [|x a]; [contradiction|]. cbn [no_space append lstrip].
  intros H _. apply andb_true_iff in H. destruct H as [H _].
  apply negb_true_iff in H. now rewrite H.
Qed.

Lemma rstrip_head x r :
  is_space x = false -> rstrip (String x r) = String x (rstrip r).
Proof. intros H. cbn [rstrip]. destruct (rstrip r); now rewrite ?H. Qed.

Lemma rstrip_no_space a b :
  no_space a = true -> rstrip (a ++ b) = a ++ rstrip b.
Proof.
  induction a as [|x a IH]; cbn [no_space append]; auto.
  intros H. apply andb_true_iff in H. destruct H as [Hx Ha].
  apply negb_true_iff in Hx. now rewrite (rstrip_head x _ Hx), IH.
Qed.

Lemma upper_lstrip s : lstrip (upper s) = upper (lstrip s).
Proof.
  induction s as [|c s IH]; cbn [upper lstrip]; auto.
  destruct (upper_char_facts c) as [_ [Hne [Hs Hn]]].
  destruct (is_space c) eqn:E.
  - rewrite (Hs eq_refl). cbn [append lstrip]. now rewrite E.
  - cbn [upper]. now apply lstrip_no_space; [apply Hn|].
Qed.

Lemma upper_rstrip s : rstrip (upper s) = upper (rstrip s).
Proof.
  induction s as [|c s IH]; cbn [upper]; auto.
  destruct (upper_char_facts c) as [_ [_ [Hs Hn]]].
  destruct (is_space c) eqn:E.
  - rewrite (Hs eq_refl). cbn [append rstrip]. rewrite IH, E.
    destruct (rstrip s) as [|c' r'] eqn:R; [reflexivity|].
    cbn [upper]. destruct (upper_char_facts c') as [_ [Hne' _]].
    rewrite (Hs eq_refl).
    destruct (upper_char c' ++ upper r') eqn:U; [|reflexivity].
    destruct (upper_char c'); [contradiction | discriminate].
  - rewrite (rstrip_head c s E). cbn [upper].
    rewrite (rstrip_no_space _ _ (Hn eq_refl)). now rewrite IH.
Qed.

(** Upper-casing and trimming commute. *)
Lemma upper_strip s : strip (upper s) = upper (strip s).
Proof. unfold strip. now rewrite upper_lstrip, upper_rstrip. Qed.

End StripFacts.

(** ** More on the request model *)

(** X1. Blanks before and after the text of a date field never change what
    [parse_date] returns, value or error. *)
Theorem parse_date_ignores_blanks :
  forall (a s b : string) (fb : date),
    all_space a = true -> all_space b = true ->
    parse_date (a ++ s ++ b) fb = parse_date s fb.
Proof.
  intros a s b fb Ha Hb. unfold parse_date.
  now rewrite (StripFacts.strip_spaces a s b Ha Hb).
Qed.

Lemma parse_date_ignores_blanks_witness :
  parse_date ("  " ++ "2024-07-15" ++ " ") (Date 1 1 1)
  = parse_date "2024-07-15" (Date 1 1 1).
Proof.
  apply (parse_date_ignores_blanks "  " "2024-07-15" " " (Date 1 1 1));
    reflexivity.
Defined.

Lemma blank_symbol u :
  all_space (symbol_var u) = true ->
  upper (strip (str_or (symbol_var u) "")) = "".
Proof.
  intros H. rewrite str_or_empty, (TextFacts.all_space_strip _ H). reflexivity.
Qed.

(** X2. With a blank ticker field the only effect of a trigger is the
    notice "Ticker cannot be empty": no thread is started, the refresh
    control and the status line stay as they were, and the date fields are
    not even looked at. *)
Theorem blank_ticker_rejected :
  forall (today : date) (u : ui),
    all_space (symbol_var u) = true ->
    _fetch_and_plot_async today u
    = (showerror "Input error" "Ticker cannot be empty" u, None).
Proof.
  intros today u H. unfold _fetch_and_plot_async, validate.
  now rewrite (blank_symbol u H).
Qed.

Lemma blank_ticker_rejected_witness :
  _fetch_and_plot_async sample_today
    (apply_edits [TypeSymbol "  "; TypeStart "not a date"] sample_ui)
  = (showerror "Input error" "Ticker cannot be empty"
       (apply_edits [TypeSymbol "  "; TypeStart "not a date"] sample_ui),
     None).
Proof.
  apply (blank_ticker_rejected sample_today
           (apply_edits [TypeSymbol "  "; TypeStart "not a date"] sample_ui)).
  reflexivity.
Defined.

(** X3. Every failure of validation is one of five, found in this order: a
    blank ticker; a current date too early to take a year off; a start
    field that is no date; an end field that is no date; an end before the
    start.  The message names the ticker, quotes the trimmed text of the
    field at fault, or names the date relationship. *)
Theorem validation_failures :
  forall (today : date) (u : ui) (e : exn),
    validate today u = Raise e ->
    (upper (strip (symbol_var u)) = ""
     /\ e = Exn ValueError "Ticker cannot be empty")
    \/ (upper (strip (symbol_var u)) <> ""
        /\ ((add_days today (-365) = None
             /\ e = Exn OverflowError "date value out of range")
            \/ exists fb,
                 add_days today (-365) = Some fb
                 /\ ((parse_date (start_var u) fb = Raise e
                      /\ e = Exn ValueError
                               (invalid_date_msg (strip (start_var u))))
                     \/ exists s,
                          parse_date (start_var u) fb = Ok s
                          /\ ((parse_date (end_var u) today = Raise e
                               /\ e = Exn ValueError
                                        (invalid_date_msg
                                           (strip (end_var u))))
                              \/ exists d,
                                   parse_date (end_var u) today = Ok d
                                   /\ date_ltb d s = true
                                   /\ e = Exn ValueError
                                            "End date is before start date")))).
Proof.
  intros today u e. unfold validate. rewrite str_or_empty.
  destruct (String.eqb (upper (strip (symbol_var u))) "") eqn:Es.
  - intros H. inversion H. left. apply String.eqb_eq in Es. auto.
  - apply String.eqb_neq in Es. intros H. right. split; [exact Es|].
    destruct (add_days today (-365)) as [fb|]; cbn [bind] in H.
    + right. exists fb. split; [reflexivity|].
      destruct (parse_date (start_var u) fb) as [s|e1] eqn:Ps; cbn [bind] in H.
      * right. exists s. split; [reflexivity|].
        destruct (parse_date (end_var u) today) as [d|e2] eqn:Pe;
          cbn [bind] in H.
        -- right. exists d. split; [reflexivity|].
           destruct (date_ltb d s); [|discriminate].
           inversion H. auto.
        -- left. inversion H; subst e2. split; [reflexivity|].
           now destruct (parse_date_error _ _ _ Pe).
      * left. inversion H; subst e1. split; [reflexivity|].
        now destruct (parse_date_error _ _ _ Ps).
    + left. inversion H. auto.
Qed.

Lemma validation_failures_witness :
  validate sample_today
    (apply_edits [TypeStart "2024/01/01"; TypeEnd "tomorrow"] sample_ui)
  = Raise (Exn ValueError "Invalid date: '2024/01/01'. Expected YYYY-MM-DD").
Proof.
  destruct (validation_failures sample_today
              (apply_edits [TypeStart "2024/01/01"; TypeEnd "tomorrow"]
                 sample_ui)
              (Exn ValueError
                 "Invalid date: '2024/01/01'. Expected YYYY-MM-DD")
              eq_refl) as [[_ H]|_]; reflexivity.
Defined.

Example upper_latin1 :
  upper (strip (" caf" ++ String "233" " ")) = "CAF" ++ String "201" ""
  /\ upper (String "223" "") = "SS"
  /\ upper (String "255" "") = String "197" (String "184" "")
  /\ upper (String "181" "") = String "206" (String "156" "")
  /\ upper (String "247" "") = String "247" "".
Proof. repeat split. Qed.

(** X4. The symbol of a validated request is the ticker field trimmed and
    then upper-cased as [str.upper] does it; it is never empty, holds no
    ASCII lower-case letter, and has no blank at either end. *)
Theorem request_symbol_normalised :
  forall (today : date) (u : ui) (r : request),
    validate today u = Ok r ->
    rq_symbol r = upper (strip (symbol_var u))
    /\ rq_symbol r <> ""
    /\ no_lower (rq_symbol r) = true
    /\ trimmed (rq_symbol r) = true.
Proof.
  intros today u r. unfold validate. rewrite str_or_empty.
  destruct (String.eqb (upper (strip (symbol_var u))) "") eqn:Es;
    [discriminate|].
  apply String.eqb_neq in Es.
  destruct (add_days today (-365)) as [fb|]; cbn [bind]; [|discriminate].
  destruct (parse_date (start_var u) fb) as [s|]; cbn [bind]; [|discriminate].
  destruct (parse_date (end_var u) today) as [d|]; cbn [bind]; [|discriminate].
  destruct (date_ltb d s); [discriminate|].
  intros H. inversion H. cbn [rq_symbol].
  split; [reflexivity|]. split; [exact Es|].
  split; [apply StripFacts.upper_no_lower|].
  unfold trimmed. rewrite StripFacts.upper_strip, StripFacts.strip_idem.
  apply String.eqb_refl.
Qed.

Lemma request_symbol_normalised_witness :
  rq_symbol sample_request = upper (strip " aapl ")
  /\ rq_symbol sample_request <> ""
  /\ no_lower (rq_symbol sample_request) = true
  /\ trimmed (rq_symbol sample_request) = true.
Proof.
  apply (request_symbol_normalised sample_today
           (apply_edit (TypeSymbol " aapl ") sample_ui) sample_request).
  reflexivity.
Defined.

(** X5. With a ticker typed in and both date fields blank, validation
    passes on every day later than a year into the calendar: the request
    runs from 365 days before the current date to the current date. *)
Theorem blank_dates_default :
  forall (today : date) (u : ui),
    valid_date today = true ->
    365 < toordinal today ->
    upper (strip (symbol_var u)) <> "" ->
    all_space (start_var u) = true ->
    all_space (end_var u) = true ->
    exists s,
      validate today u
      = Ok (Request (upper (strip (symbol_var u))) s today
              (str_or (interval_var u) "1d"))
      /\ valid_date s = true
      /\ toordinal s = toordinal today - 365.
Proof.
  intros today u Hv Ho Hsym Hs He.
  pose proof (CalendarFacts.toordinal_bounds today Hv) as Hb.
  destruct (CalendarOrder.add_days_in_range today (-365) Hv ltac:(lia))
    as [s [Hadd [Hvs Hos]]].
  exists s.
  assert (Ps : parse_date (start_var u) s = Ok s).
  { unfold parse_date. now rewrite (TextFacts.all_space_strip _ Hs). }
  assert (Pe : parse_date (end_var u) today = Ok today).
  { unfold parse_date. now rewrite (TextFacts.all_space_strip _ He). }
  rewrite (validate_dates today u s s today Hsym Hadd Ps Pe).
  rewrite (CalendarOrder.date_ltb_toordinal today s Hv Hvs).
  replace (toordinal today <? toordinal s) with false by lia.
  repeat split; [exact Hvs | lia].
Qed.

Lemma blank_dates_default_witness :
  exists s,
    validate sample_today
      (apply_edits [TypeStart ""; TypeEnd "  "] sample_ui)
    = Ok (Request "AAPL" s sample_today "1d")
    /\ valid_date s = true
    /\ toordinal s = toordinal sample_today - 365.
Proof.
  apply (blank_dates_default sample_today
           (apply_edits [TypeStart ""; TypeEnd "  "] sample_ui));
    [reflexivity | reflexivity | discriminate | reflexivity | reflexivity].
Defined.

(** ** More on quick ranges and start-up *)

(** A quick range whose bounds are dates in order is written to the date
    fields as ISO text and read back unchanged by the validation that
    follows. *)
Lemma quick_range_fetch p today u s e fb :
  quick_range p today = Ok (s, e) ->
  valid_date s = true -> valid_date e = true ->
  date_leb s e = true ->
  upper (strip (symbol_var u)) <> "" ->
  add_days today (-365) = Some fb ->
  let r := Request (upper (strip (symbol_var u))) s e
             (str_or (interval_var u) "1d") in
  _set_quick_range p today u
  = Ok (set_status (loading_msg r)
          (set_load_btn DISABLED (set_dates (isoformat s) (isoformat e) u)),
        Some r).
Proof.
  intros Hq Hs He Hle Hsym Hfb r. unfold _set_quick_range.
  rewrite Hq. cbn [bind fst snd]. unfold _fetch_and_plot_async.
  set (u' := set_dates (isoformat s) (isoformat e) u).
  assert (V : validate today u' = Ok r).
  { rewrite (validate_dates today u' fb s e).
    - rewrite date_leb_ltb in Hle. apply negb_true_iff in Hle.
      rewrite Hle. destruct u; reflexivity.
    - destruct u; exact Hsym.
    - exact Hfb.
    - destruct u. cbn. now apply parse_date_isoformat.
    - destruct u. cbn. now apply parse_date_isoformat. }
  now rewrite V.
Qed.

Lemma quick_range_days today n :
  valid_date today = true -> 0 <= n < toordinal today ->
  exists s,
    quick_range (Days n) today = Ok (s, today)
    /\ valid_date s = true
    /\ toordinal s = toordinal today - n
    /\ date_leb s today = true.
Proof.
  intros Hv Hn.
  pose proof (CalendarFacts.toordinal_bounds today Hv) as Hb.
  destruct (CalendarOrder.add_days_in_range today (- n) Hv ltac:(lia))
    as [s [Hadd [Hvs Hos]]].
  exists s. unfold quick_range. rewrite Hadd.
  repeat split; [exact Hvs | lia |].
  rewrite (CalendarOrder.date_leb_toordinal s today Hvs Hv). lia.
Qed.

(** X6. A quick range of [n] days, on a day more than [n] days into the
    calendar, runs from exactly [n] days before the current date to the
    current date, so its start is never after its end; on an earlier day
    the subtraction overflows and the handler stops before it writes a
    date field or starts a fetch. *)
Theorem quick_range_days_back :
  forall (today : date) (n : Z) (u : ui),
    valid_date today = true -> 0 <= n ->
    (n < toordinal today ->
       exists s,
         quick_range (Days n) today = Ok (s, today)
         /\ valid_date s = true
         /\ toordinal s = toordinal today - n
         /\ date_leb s today = true)
    /\ (toordinal today <= n ->
          _set_quick_range (Days n) today u
          = Raise (Exn OverflowError "date value out of range")).
Proof.
  intros today n u Hv Hn. split.
  - intros Hlt. apply quick_range_days; [exact Hv | lia].
  - intros Hge. unfold _set_quick_range, quick_range.
    now rewrite (CalendarOrder.add_days_out_of_range today (- n))
      by (left; lia).
Qed.

Lemma quick_range_days_back_witness :
  (exists s,
     quick_range (Days 30) sample_today = Ok (s, sample_today)
     /\ valid_date s = true
     /\ toordinal s = toordinal sample_today - 30
     /\ date_leb s sample_today = true)
  /\ _set_quick_range (Days 30) (Date 1 1 15) sample_ui
     = Raise (Exn OverflowError "date value out of range").
Proof.
  split.
  - apply (quick_range_days_back sample_today 30 sample_ui);
      [reflexivity | discriminate | reflexivity].
  - apply (quick_range_days_back (Date 1 1 15) 30 sample_ui);
      [reflexivity | discriminate | discriminate].
Defined.

Lemma first_of_january today :
  valid_date today = true ->
  valid_date (Date (year today) 1 1) = true
  /\ date_leb (Date (year today) 1 1) today = true.
Proof.
  intros Hv. destruct (CalendarFacts.valid_date_fields today Hv)
    as [Hy [Hm Hd]].
  split.
  - unfold valid_date, MINYEAR, MAXYEAR. cbn [year month day].
    change (days_in_month (year today) 1) with 31. lia.
  - unfold date_leb. cbn [year month day]. lia.
Qed.

(** X7. Every quick-range button, pressed with a ticker typed in on any
    day from 1980-01-01 on, starts a fetch: the range it computes ends on
    the current date and does not start after it, both date fields hold
    the ISO text of the bounds, and the request handed to the thread
    carries exactly these bounds. *)
Theorem quick_range_buttons_fetch :
  forall (title : string) (p : payload) (today : date) (u : ui),
    In (title, p) ranges ->
    valid_date today = true ->
    date_leb (Date 1980 1 1) today = true ->
    upper (strip (symbol_var u)) <> "" ->
    exists s u',
      quick_range p today = Ok (s, today)
      /\ date_leb s today = true
      /\ _set_quick_range p today u
         = Ok (u', Some (Request (upper (strip (symbol_var u))) s today
                           (str_or (interval_var u) "1d")))
      /\ start_var u' = isoformat s
      /\ end_var u' = isoformat today
      /\ load_btn u' = DISABLED.
Proof.
  intros title p today u Hin Hv H1980 Hsym.
  assert (Ho : 722815 <= toordinal today).
  { rewrite (CalendarOrder.date_leb_toordinal (Date 1980 1 1) today
               eq_refl Hv) in H1980.
    change (toordinal (Date 1980 1 1)) with 722815 in H1980. lia. }
  pose proof (CalendarFacts.toordinal_bounds today Hv) as Hb.
  destruct (CalendarOrder.add_days_in_range today (-365) Hv ltac:(lia))
    as [fb [Hfb _]].
  assert (G : exists s,
             quick_range p today = Ok (s, today)
             /\ valid_date s = true /\ date_leb s today = true).
  { unfold ranges in Hin. cbn [In] in Hin.
    repeat (destruct Hin as [Hin|Hin];
            [inversion Hin; subst title p; clear Hin|]);
      try contradiction.
    - destruct (quick_range_days today 30 Hv ltac:(lia)) as [s [? [? [? ?]]]];
        eauto.
    - destruct (quick_range_days today 90 Hv ltac:(lia)) as [s [? [? [? ?]]]];
        eauto.
    - destruct (quick_range_days today 182 Hv ltac:(lia)) as [s [? [? [? ?]]]];
        eauto.
    - destruct (first_of_january today Hv) as [? ?].
      exists (Date (year today) 1 1). rewrite quick_range_ytd by exact Hv.
      auto.
    - destruct (quick_range_days today 365 Hv ltac:(lia)) as [s [? [? [? ?]]]];
        eauto.
    - destruct (quick_range_days today (365 * 5) Hv ltac:(lia))
        as [s [? [? [? ?]]]]; eauto.
    - exists (Date 1980 1 1). auto. }
  destruct G as [s [Hq [Hvs Hle]]].
  exists s. eexists. split; [exact Hq|]. split; [exact Hle|].
  rewrite (quick_range_fetch p today u s today fb Hq Hvs Hv Hle Hsym Hfb).
  split; [reflexivity|]. destruct u. repeat split.
Qed.

Lemma quick_range_buttons_fetch_witness :
  exists s u',
    quick_range (Days 182) sample_today = Ok (s, sample_today)
    /\ date_leb s sample_today = true
    /\ _set_quick_range (Days 182) sample_today sample_ui
       = Ok (u', Some (Request "AAPL" s sample_today "1d"))
    /\ start_var u' = isoformat s
    /\ end_var u' = isoformat sample_today
    /\ load_btn u' = DISABLED.
Proof.
  apply (quick_range_buttons_fetch "6M" (Days 182) sample_today sample_ui);
    [cbn; tauto | reflexivity | reflexivity | discriminate].
Defined.

(** X8. Start-up.  When the class is defined and the window is opened on
    days more than a year into the calendar, the first fetch always passes
    validation: it asks for AAPL, daily, from 365 days before the day the
    class was defined to that day, disables the refresh control and raises
    no notice. *)
Theorem startup_fetch :
  forall (today0 today : date),
    valid_date today0 = true -> 365 < toordinal today0 ->
    valid_date today = true -> 365 < toordinal today ->
    exists st u',
      default_state today0 = Ok st
      /\ valid_date (st_start st) = true
      /\ toordinal (st_start st) = toordinal today0 - 365
      /\ init_app st today
         = (u', Some (Request "AAPL" (st_start st) today0 "1d"))
      /\ load_btn u' = DISABLED
      /\ notices u' = []
      /\ (ma5_var u', ma20_var u', ma50_var u') = (true, true, true).
Proof.
  intros today0 today Hv0 Ho0 Hv Ho.
  pose proof (CalendarFacts.toordinal_bounds today0 Hv0) as Hb0.
  pose proof (CalendarFacts.toordinal_bounds today Hv) as Hb.
  destruct (CalendarOrder.add_days_in_range today0 (-365) Hv0 ltac:(lia))
    as [s [Hadd [Hvs Hos]]].
  destruct (CalendarOrder.add_days_in_range today (-365) Hv ltac:(lia))
    as [fb [Hfb _]].
  unfold default_state. rewrite Hadd.
  eexists. eexists. split; [reflexivity|]. cbn [st_start].
  split; [exact Hvs|]. split; [exact Hos|].
  unfold init_app, _fetch_and_plot_async.
  cbn [st_symbol st_start st_end st_interval st_ma5 st_ma20 st_ma50].
  rewrite (validate_dates today _ fb s today0);
    [| discriminate | exact Hfb
     | cbn [start_var]; now apply parse_date_isoformat
     | cbn [end_var]; now apply parse_date_isoformat].
  rewrite (CalendarOrder.date_ltb_toordinal today0 s Hv0 Hvs).
  replace (toordinal today0 <? toordinal s) with false by lia.
  split; [reflexivity|]. repeat split.
Qed.

Lemma startup_fetch_witness :
  exists st u',
    default_state sample_today = Ok st
    /\ valid_date (st_start st) = true
    /\ toordinal (st_start st) = toordinal sample_today - 365
    /\ init_app st (Date 2024 7 16)
       = (u', Some (Request "AAPL" (st_start st) sample_today "1d"))
    /\ load_btn u' = DISABLED
    /\ notices u' = []
    /\ (ma5_var u', ma20_var u', ma50_var u') = (true, true, true).
Proof.
  apply (startup_fetch sample_today (Date 2024 7 16)); reflexivity.
Defined.

(** ** More on the background thread *)

(** X9. A table reaches the moving-average code only as the provider's
    reply to the call made for this request, and only if it has at least
    one row and at least one column. *)
Theorem fetched_table_has_rows :
  forall (yf : provider) (r : request) (df : frame),
    fetch yf r = Ok df ->
    (0 < frame_len df)%nat
    /\ (columns df <> [] \/ volume df <> None)
    /\ exists c, download_call r = Ok c /\ yf c = ReturnsTable df.
Proof.
  intros yf r df. unfold fetch.
  destruct (download_call r) as [c|e]; cbn [bind]; [|discriminate].
  destruct (yf c) as [e| |df0] eqn:Hy; try discriminate.
  destruct (frame_empty df0) eqn:He; [discriminate|].
  intros H. inversion H; subst df0. clear H.
  unfold frame_empty in He. apply orb_false_iff in He. destruct He as [H1 H2].
  apply Nat.eqb_neq in H1. split; [lia|]. split.
  - destruct (columns df); [|left; discriminate].
    destruct (volume df); [right; discriminate | discriminate].
  - exists c. auto.
Qed.

Lemma fetched_table_has_rows_witness :
  (0 < frame_len sample_frame)%nat
  /\ (columns sample_frame <> [] \/ volume sample_frame <> None)
  /\ exists c,
       download_call sample_request = Ok c
       /\ provider_sample c = ReturnsTable sample_frame.
Proof.
  apply (fetched_table_has_rows provider_sample sample_request sample_frame).
  reflexivity.
Defined.

(** X10. A request that ends on the last date of the calendar never
    reaches the provider: adding the day overflows inside the [try] block,
    and the cycle takes the failure path with "date value out of range",
    whatever the provider would have answered. *)
Theorem last_date_never_fetched :
  forall (yf : provider) (r : request) (u : ui),
    rq_end r = date_max ->
    fetch yf r = Raise (Exn OverflowError "date value out of range")
    /\ _fetch_and_plot yf r u
       = Scheduled
           (OnFetchError
              (e_cell (Exn OverflowError "date value out of range"))).
Proof.
  intros yf r u H.
  assert (F : fetch yf r = Raise (Exn OverflowError "date value out of range")).
  { unfold fetch, download_call. rewrite H.
    rewrite CalendarFacts.add_one_day_max. reflexivity. }
  split; [exact F|]. now apply failure_schedules_handler.
Qed.

Lemma last_date_never_fetched_witness :
  fetch provider_sample (Request "AAPL" (Date 2024 1 1) date_max "1d")
  = Raise (Exn OverflowError "date value out of range")
  /\ _fetch_and_plot provider_sample
       (Request "AAPL" (Date 2024 1 1) date_max "1d") sample_ui
     = Scheduled
         (OnFetchError
            (e_cell (Exn OverflowError "date value out of range"))).
Proof.
  apply (last_date_never_fetched provider_sample
           (Request "AAPL" (Date 2024 1 1) date_max "1d") sample_ui).
  reflexivity.
Defined.




(** ** More on the rolling mean *)

Lemma sum_defined_none l : sum_defined l = None <-> In None l.
Proof.
  induction l as [|[x|] l IH]; cbn [sum_defined In].
  - split; [discriminate | contradiction].
  - destruct (sum_defined l); cbn [option_map]; split.
    + discriminate.
    + intros [H|H]; [discriminate|]. apply IH in H. discriminate.
    + intros _. right. now apply IH.
    + reflexivity.
  - split; auto.
Qed.

Lemma window_has_undefined w i prices :
  In None (window_prices w i prices)
  <-> exists j, (i + 1 - w <= j < i + 1 - w + w)%nat
                /\ nth j prices None = None.
Proof.
  unfold window_prices. rewrite in_map_iff. split.
  - intros [j [Hj Hin]]. apply in_seq in Hin. exists j. auto.
  - intros [j [Hr Hj]]. exists j. split; [exact Hj|]. apply in_seq. lia.
Qed.

(** X12. A moving average is undefined at a position exactly when the
    window is not yet full there or one of the prices in the window is
    undefined: an undefined price blanks the [w] averages whose windows
    hold it and no others. *)
Theorem rolling_mean_undefined_iff :
  forall (w : nat) (prices : column) (i : nat),
    (1 <= w)%nat -> (i < List.length prices)%nat ->
    (nth_error (rolling_mean w prices) i = Some None
     <-> (i + 1 < w)%nat
         \/ exists j, (i + 1 - w <= j <= i)%nat
                      /\ nth j prices None = None).
Proof.
  intros w prices i Hw Hi.
  destruct (RollingFacts.rolling_mean_spec w prices i Hw Hi) as [q [Hq Hs]].
  rewrite Hq. unfold trailing_mean in Hs.
  destruct (i + 1 <? w)%nat eqn:Hlt.
  - apply Nat.ltb_lt in Hlt. destruct q; [contradiction|].
    split; auto.
  - apply Nat.ltb_ge in Hlt. unfold arithmetic_mean in Hs.
    pose proof (sum_defined_none (window_prices w i prices)) as Hn.
    rewrite (window_has_undefined w i prices) in Hn.
    split.
    + intros E. inversion E; subst q. right.
      destruct (sum_defined (window_prices w i prices)); [contradiction|].
      destruct Hn as [Hn _]. destruct (Hn eq_refl) as [j [Hr Hj]].
      exists j. split; [lia | exact Hj].
    + intros [H|[j [Hr Hj]]]; [lia|].
      destruct Hn as [_ Hn]. rewrite Hn in Hs by (exists j; split; [lia|auto]).
      cbn [option_map] in Hs. destruct q; [contradiction | reflexivity].
Qed.

Lemma rolling_mean_undefined_iff_witness :
  nth_error (rolling_mean 5 ten_prices) 3 = Some None
  <-> (3 + 1 < 5)%nat
      \/ exists j, (3 + 1 - 5 <= j <= 3)%nat
                   /\ nth j ten_prices None = None.
Proof.
  apply (rolling_mean_undefined_iff 5 ten_prices 3); cbn; lia.
Defined.

Lemma oq_eq_sym a b : oq_eq a b -> oq_eq b a.
Proof. destruct a, b; cbn; auto. intros H. now symmetry. Qed.

Lemma oq_eq_trans a b c : oq_eq a b -> oq_eq b c -> oq_eq a c.
Proof.
  destruct a, b, c; cbn; auto; try contradiction.
  intros H1 H2. now rewrite H1.
Qed.

(** X13. A moving average looks back only: the value at a position is the
    same whatever prices follow it. *)
Theorem rolling_mean_looks_back :
  forall (w : nat) (prices later : column) (i : nat),
    (1 <= w)%nat -> (i < List.length prices)%nat ->
    exists a b,
      nth_error (rolling_mean w prices) i = Some a
      /\ nth_error (rolling_mean w (prices ++ later)%list) i = Some b
      /\ oq_eq a b.
Proof.
  intros w prices later i Hw Hi.
  destruct (RollingFacts.rolling_mean_spec w prices i Hw Hi) as [a [Ha Hsa]].
  destruct (RollingFacts.rolling_mean_spec w (prices ++ later)%list i Hw)
    as [b [Hb Hsb]]; [rewrite length_app; lia|].
  exists a, b. split; [exact Ha|]. split; [exact Hb|].
  unfold trailing_mean in *.
  destruct (i + 1 <? w)%nat eqn:Hlt.
  - destruct a, b; cbn in *; try contradiction; exact I.
  - apply Nat.ltb_ge in Hlt.
    assert (E : window_prices w i (prices ++ later)%list
                = window_prices w i prices).
    { unfold window_prices. apply map_ext_in. intros j Hj.
      apply in_seq in Hj. apply app_nth1. lia. }
    rewrite E in Hsb.
    eapply oq_eq_trans; [exact Hsa | now apply oq_eq_sym].
Qed.

Lemma rolling_mean_looks_back_witness :
  exists a b,
    nth_error (rolling_mean 5 ten_prices) 6 = Some a
    /\ nth_error
         (rolling_mean 5 (ten_prices ++ [Some (99 # 1); None])%list) 6
       = Some b
    /\ oq_eq a b.
Proof.
  apply (rolling_mean_looks_back 5 ten_prices [Some (99 # 1); None] 6);
    cbn; lia.
Defined.

(** ** More on redraws *)

(** X14. A cycle whose fetch brings a table with rows and a price column
    always ends with the refresh control enabled and the status line
    "Loaded {symbol}: {n} rows", [n] the number of rows of the provider's
    table, whatever the user typed or toggled in between and whenever the
    scheduled redraw runs. *)
Theorem loaded_status_counts_rows :
  forall (today : date) (yf : provider) (es1 es2 : list user_edit)
         (m : moment) (u : ui) (r : request) (c : provider_call)
         (df : frame) (prices : column),
    validate today u = Ok r ->
    download_call r = Ok c ->
    yf c = ReturnsTable df ->
    frame_empty df = false ->
    frame_get (price_column df) df = Ok prices ->
    let out := fetch_cycle today yf es1 es2 m u in
    snd out = Ok tt
    /\ load_btn (fst out) = NORMAL
    /\ status_var (fst out) = loaded_msg (rq_symbol r) (frame_len df).
Proof.
  intros today yf es1 es2 m u r c df prices Hv Hc Hy He Hp.
  exact (successful_cycle today yf es1 es2 m u r c df prices Hv Hc Hy He Hp).
Qed.

Lemma loaded_status_counts_rows_witness :
  let out :=
    fetch_cycle sample_today provider_sample [ToggleMa20] [TypeSymbol "msft"]
      AfterExcept sample_ui in
  snd out = Ok tt
  /\ load_btn (fst out) = NORMAL
  /\ status_var (fst out) = loaded_msg "AAPL" 10.
Proof.
  apply (loaded_status_counts_rows sample_today provider_sample [ToggleMa20]
           [TypeSymbol "msft"] AfterExcept sample_ui sample_request
           (ProviderCall "AAPL" "2024-01-01" "2024-07-16" "1d") sample_frame
           ten_prices);
    reflexivity.
Defined.

(** X15. A redraw starts from a cleared figure: the chart it leaves does
    not depend on the chart it found, and the ticker, date, interval and
    toggle variables are as they were. *)
Theorem redraw_replaces_chart :
  forall (symbol : string) (df : frame) (pc : string) (cols : list string)
         (interval : string) (s e : date) (prices : column) (u1 u2 : ui),
    frame_get pc df = Ok prices ->
    (forall c, In c cols -> has_column c df = true) ->
    let out1 := fst (_draw_plot symbol df pc cols interval s e u1) in
    let out2 := fst (_draw_plot symbol df pc cols interval s e u2) in
    chart out1 = chart out2
    /\ symbol_var out1 = symbol_var u1
    /\ start_var out1 = start_var u1
    /\ end_var out1 = end_var u1
    /\ interval_var out1 = interval_var u1
    /\ (ma5_var out1, ma20_var out1, ma50_var out1)
       = (ma5_var u1, ma20_var u1, ma50_var u1).
Proof.
  intros symbol df pc cols interval s e prices u1 u2 Hp Hall.
  rewrite (draw_plot_completes symbol df pc cols interval s e prices u1 Hp Hall).
  rewrite (draw_plot_completes symbol df pc cols interval s e prices u2 Hp Hall).
  cbn [fst rendered_ui chart symbol_var start_var end_var interval_var
       ma5_var ma20_var ma50_var].
  repeat split.
Qed.

Lemma redraw_replaces_chart_witness :
  let out1 :=
    fst (_draw_plot "AAPL" sample_transformed "Close" ["MA5"] "1d"
           (Date 2024 1 1) (Date 2024 7 15) sample_loading_ui) in
  let out2 :=
    fst (_draw_plot "AAPL" sample_transformed "Close" ["MA5"] "1d"
           (Date 2024 1 1) (Date 2024 7 15) built_ui) in
  chart out1 = chart out2
  /\ symbol_var out1 = symbol_var sample_loading_ui
  /\ start_var out1 = start_var sample_loading_ui
  /\ end_var out1 = end_var sample_loading_ui
  /\ interval_var out1 = interval_var sample_loading_ui
  /\ (ma5_var out1, ma20_var out1, ma50_var out1)
     = (ma5_var sample_loading_ui, ma20_var sample_loading_ui,
        ma50_var sample_loading_ui).
Proof.
  apply (redraw_replaces_chart "AAPL" sample_transformed "Close" ["MA5"] "1d"
           (Date 2024 1 1) (Date 2024 7 15) ten_prices sample_loading_ui
           built_ui).
  - reflexivity.
  - intros c [<-|[]]. reflexivity.
Defined.

(** Taking first elements works exactly on columns of rows that have
    one. *)
Lemma first_of_each_rows vol :
  forallb is_row vol = true -> first_of_each vol = Ok (row_heads vol).
Proof.
  induction vol as [|v vol IH]; [reflexivity|].
  cbn [forallb first_of_each row_heads map]. intros H.
  apply andb_true_iff in H. destruct H as [Hv Hr].
  destruct v as [x|[|x xs]|]; try discriminate.
  cbn [getitem0 bind]. fold (row_heads vol). now rewrite (IH Hr).
Qed.

Lemma first_of_each_not_rows vol :
  forallb is_row vol = false -> exists e, first_of_each vol = Raise e.
Proof.
  induction vol as [|v vol IH]; [discriminate|].
  cbn [forallb first_of_each]. intros H.
  destruct v as [x|[|x xs]|]; cbn [getitem0 bind]; eauto.
  cbn [is_row andb] in H. destruct (IH H) as [e E]. rewrite E.
  cbn [bind]. eauto.
Qed.

Lemma no_bar_in_ma_lines df cols xs h : ~ In (Bar xs h) (ma_lines df cols).
Proof.
  unfold ma_lines. rewrite in_map_iff. intros [c [E _]]. discriminate.
Qed.

(** X16. Volume bars.  When every volume value is a row with a first
    element, the redraw draws one bar per row of the table from those
    first elements and raises no notice; when some value is not (a plain
    number, an empty row, a missing value), it draws no bars at all and
    raises exactly one notice. *)
Theorem volume_bars_need_rows :
  forall (symbol : string) (df : frame) (pc : string) (cols : list string)
         (interval : string) (s e : date) (prices : column) (u : ui)
         (vol : list cell),
    frame_get pc df = Ok prices ->
    (forall c, In c cols -> has_column c df = true) ->
    volume df = Some vol ->
    let out := fst (_draw_plot symbol df pc cols interval s e u) in
    (forallb is_row vol = true ->
       In (Bar (index df) (row_heads vol)) (chart out)
       /\ List.length (row_heads vol) = List.length vol
       /\ notices out = notices u)
    /\ (forallb is_row vol = false ->
          (forall xs h, ~ In (Bar xs h) (chart out))
          /\ exists msg,
               notices out = (notices u ++ [Notice "Volume error" msg])%list).
Proof.
  intros symbol df pc cols interval s e prices u vol Hp Hall Hvol.
  rewrite (draw_plot_completes symbol df pc cols interval s e prices u Hp Hall).
  cbn [fst rendered_ui chart notices].
  unfold rendered_chart, volume_ops, volume_notices. rewrite Hvol. split.
  - intros Hr. rewrite (first_of_each_rows vol Hr). split.
    + rewrite !in_app_iff. right. right. right. left. left. now left.
    + split; [unfold row_heads; apply length_map | apply app_nil_r].
  - intros Hr. destruct (first_of_each_not_rows vol Hr) as [exc E].
    rewrite E. split.
    + intros xs h Hin. rewrite !in_app_iff in Hin. cbn [In] in Hin.
      pose proof (no_bar_in_ma_lines df cols xs h) as Hma.
      intuition discriminate.
    + eauto.
Qed.

Lemma volume_bars_need_rows_witness :
  let out :=
    fst (_draw_plot "AAPL" sample_frame_rows "Close" [] "1d" (Date 2024 1 1)
           (Date 2024 7 15) sample_loading_ui) in
  In (Bar [1; 2; 3] [Some (100 # 1); Some (110 # 1); Some (120 # 1)])
     (chart out)
  /\ notices out = [].
Proof.
  destruct (volume_bars_need_rows "AAPL" sample_frame_rows "Close" [] "1d"
              (Date 2024 1 1) (Date 2024 7 15)
              [Some (10 # 1); Some (11 # 1); Some (13 # 1)] sample_loading_ui
              [CRow [Some (100 # 1)]; CRow [Some (110 # 1)];
               CRow [Some (120 # 1)]])
    as [H _].
  - reflexivity.
  - intros c [].
  - reflexivity.
  - destruct (H eq_refl) as [H1 [_ H3]]. split; [exact H1 | exact H3].
Defined.

Lemma draw_plot_no_price symbol df pc cols interval s e u exc :
  frame_get pc df = Raise exc ->
  _draw_plot symbol df pc cols interval s e u
  = (set_chart [AddSubplots] u, Raise exc).
Proof.
  intros Hp. destruct u as [sy sv ev iv m5 m20 m50 lb st ch nt].
  unfold _draw_plot. act_step. act_step.
  unfold act_bind at 1. unfold act_lift at 1. rewrite Hp. reflexivity.
Qed.

(** X17. A table that has rows but neither an "Adj Close" nor a "Close"
    column stalls the cycle: the lookup of the price column raises
    [KeyError] outside every [try], in the thread when a toggle is on and in
    the redraw otherwise, and the refresh control is left disabled. *)
Theorem no_price_column_stalls :
  forall (today : date) (yf : provider) (es1 es2 : list user_edit)
         (m : moment) (u : ui) (r : request) (c : provider_call) (df : frame),
    validate today u = Ok r ->
    download_call r = Ok c ->
    yf c = ReturnsTable df ->
    frame_empty df = false ->
    has_column "Adj Close" df = false ->
    has_column "Close" df = false ->
    let out := fetch_cycle today yf es1 es2 m u in
    load_btn (fst out) = DISABLED
    /\ exists exc, snd out = Raise exc /\ exn_cls exc = KeyError.
Proof.
  intros today yf es1 es2 m u r c df Hv Hc Hy He Ha Hcl.
  unfold fetch_cycle, _fetch_and_plot_async. rewrite Hv.
  unfold _fetch_and_plot. rewrite (fetch_table yf r c df Hc Hy He).
  set (u1 := set_status (loading_msg r) (set_load_btn DISABLED u)).
  destruct (apply_edits_keep u1 es1) as [G1 _].
  destruct (apply_edits_keep (apply_edits es1 u1) es2) as [H1 _].
  assert (Hpc : price_column df = "Close")
    by (unfold price_column; now rewrite Ha).
  assert (Hp : frame_get "Close" df = Raise (Exn KeyError "Close")).
  { unfold frame_get. unfold has_column in Hcl.
    destruct (col_get "Close" (columns df)); [discriminate | reflexivity]. }
  assert (Hb : load_btn (apply_edits es2 (apply_edits es1 u1)) = DISABLED)
    by (rewrite H1, G1; destruct u; reflexivity).
  unfold transform. rewrite Hpc.
  destruct (ma5_var (apply_edits es1 u1)).
  { rewrite (add_ma_no_price _ _ _ _ _ _ Hp). cbn [bind fst snd].
    split; [exact Hb | eauto]. }
  rewrite add_ma_off. cbn [bind].
  destruct (ma20_var (apply_edits es1 u1)).
  { rewrite (add_ma_no_price _ _ _ _ _ _ Hp). cbn [bind fst snd].
    split; [exact Hb | eauto]. }
  rewrite add_ma_off. cbn [bind].
  destruct (ma50_var (apply_edits es1 u1)).
  { rewrite (add_ma_no_price _ _ _ _ _ _ Hp). cbn [bind fst snd].
    split; [exact Hb | eauto]. }
  rewrite add_ma_off. cbn [bind fst snd]. unfold run_callback.
  rewrite (draw_plot_no_price _ _ _ _ _ _ _ _ _ Hp). cbn [fst snd].
  split; [|eauto].
  destruct (apply_edits es2 (apply_edits es1 u1)). exact Hb.
Qed.

Lemma no_price_column_stalls_witness :
  let out :=
    fetch_cycle sample_today (fun _ => ReturnsTable frame_no_close) [] []
      AfterExcept sample_ui in
  load_btn (fst out) = DISABLED
  /\ exists exc, snd out = Raise exc /\ exn_cls exc = KeyError.
Proof.
  apply (no_price_column_stalls sample_today
           (fun _ => ReturnsTable frame_no_close) [] [] AfterExcept sample_ui
           sample_request
           (ProviderCall "AAPL" "2024-01-01" "2024-07-16" "1d")
           frame_no_close);
    reflexivity.
Defined.

(** ** Failed fetches, handled in time *)



(** ** Saving the chart *)

(** X19. Saving never raises and never touches the chart, the refresh
    control or the input fields, and the writer is given the chart as it
    stands.  A cancelled dialog changes nothing at all; a successful save
    changes only the status line, to "Saved: {name}"; a failed save
    changes only the notices, adding "Save failed" with the writer's
    message. *)
Theorem save_png_effects :
  forall (fname : string) (savefig : string -> list draw_op -> result unit)
         (u : ui),
    let out := _save_png fname savefig u in
    snd out = Ok tt
    /\ chart (fst out) = chart u
    /\ load_btn (fst out) = load_btn u
    /\ (symbol_var (fst out), start_var (fst out), end_var (fst out),
        interval_var (fst out))
       = (symbol_var u, start_var u, end_var u, interval_var u)
    /\ (fname = "" -> fst out = u)
    /\ (fname <> "" -> savefig fname (chart u) = Ok tt ->
          status_var (fst out) = "Saved: " ++ fname
          /\ notices (fst out) = notices u)
    /\ (forall e, fname <> "" -> savefig fname (chart u) = Raise e ->
          status_var (fst out) = status_var u
          /\ notices (fst out)
             = (notices u ++ [Notice "Save failed" (exn_msg e)])%list).
Proof.
  intros fname savefig u. unfold _save_png.
  destruct (String.eqb fname "") eqn:E.
  - apply String.eqb_eq in E. cbn [fst snd].
    repeat split; try contradiction; auto.
  - apply String.eqb_neq in E.
    destruct (savefig fname (chart u)) as [[]|e0] eqn:S; cbn [fst snd];
      destruct u as [sy sv ev iv m5 m20 m50 lb st ch nt];
      cbn [set_status showerror chart load_btn symbol_var start_var end_var
           interval_var status_var notices];
      repeat split; try contradiction; try discriminate.
    match goal with
    | X : Raise _ = Raise _ |- _ => inversion X; reflexivity
    end.
Qed.

Lemma save_png_effects_witness :
  fst (_save_png "" savefig_denied sample_ui) = sample_ui
  /\ status_var (fst (_save_png "chart.png" savefig_ok sample_ui))
     = "Saved: chart.png"
  /\ notices (fst (_save_png "chart.png" savefig_denied sample_ui))
     = [Notice "Save failed" "Permission denied"].
Proof.
  destruct (save_png_effects "" savefig_denied sample_ui)
    as [_ [_ [_ [_ [H1 _]]]]].
  destruct (save_png_effects "chart.png" savefig_ok sample_ui)
    as [_ [_ [_ [_ [_ [H2 _]]]]]].
  destruct (save_png_effects "chart.png" savefig_denied sample_ui)
    as [_ [_ [_ [_ [_ [_ H3]]]]]].
  split; [apply H1; reflexivity|]. split.
  - apply H2; [discriminate | reflexivity].
  - apply (H3 (Exn RuntimeError "Permission denied"));
      [discriminate | reflexivity].
Defined.

(** ** The tickers of the heat map *)

Lemma read_loop_firstn lines : forall count acc,
  0 <= count <= 20 ->
  read_loop lines count acc
  = (acc ++ map strip (firstn (Z.to_nat (21 - count)) lines))%list.
Proof.
  induction lines as [|line rest IH]; intros count acc Hc.
  - cbn [read_loop]. rewrite firstn_nil. cbn [map]. now rewrite app_nil_r.
  - cbn [read_loop].
    replace (Z.to_nat (21 - count)) with (S (Z.to_nat (20 - count))) by lia.
    cbn [firstn map].
    destruct (Z.ltb_spec 20 (count + 1)) as [H|H].
    + replace (Z.to_nat (20 - count)) with 0%nat by lia.
      cbn [firstn map]. reflexivity.
    + rewrite IH by lia. rewrite <- app_assoc. cbn [app].
      replace (21 - (count + 1)) with (20 - count) by lia. reflexivity.
Qed.

(** X20. The heat map reads the first 21 lines of its ticker file (all of
    them when there are fewer), not 20: its list of tickers is those lines
    trimmed, in sorted order, a blank line giving an empty ticker. *)
Theorem tickers_first_21_sorted :
  forall lines : list string,
    Permutation (map strip (firstn 21 lines)) (read_tickers lines)
    /\ Sorted (fun a b => String.leb a b = true) (read_tickers lines)
    /\ List.length (read_tickers lines) = Nat.min 21 (List.length lines).
Proof.
  intros lines. unfold read_tickers.
  rewrite (read_loop_firstn lines 0 []) by lia.
  change (Z.to_nat (21 - 0)) with 21%nat. cbn [app].
  pose proof (StringSort.Permuted_sort (map strip (firstn 21 lines))) as P.
  split; [exact P|]. split.
  - exact (StringSort.Sorted_sort (map strip (firstn 21 lines))).
  - rewrite <- (Permutation_length P), length_map. apply length_firstn.
Qed.
